(** * b2b-form-submit: a shallow embedding of [api/b2b-form-submit.js]

    The endpoint reads a multipart form submission, uploads its file to the
    helpdesk and creates a ticket that references the upload.  This file
    embeds the JavaScript of [parseMultipartForm], [getBasicAuth] and
    [handler] as Rocq functions and proves the properties of the
    specification about them.

    Conventions of the embedding:
    - a JavaScript string is the list of its UTF-16 code units ([jsstring]);
    - a [Buffer] is a list of bytes;
    - [undefined] results of indexing and of pattern matching are [None];
    - an exception is the [Err] case of [Result]; a promise is [Settled];
    - the two upstream calls are answered by a [World]; what the handler
      does to the outside is recorded, in order, in a trace of [Event]s. *)

From Stdlib Require Import Strings.String Strings.Ascii Strings.Byte NArith ZArith List Lia Permutation DecimalString.
From stdpp Require Import base option list gmap.

Local Open Scope N_scope.

(** ** JavaScript strings *)

Module Js.

Abbreviation codeunit := N (only parsing).
Abbreviation jsstring := (list N) (only parsing).

(** A string literal of the source, as code units (literals are ASCII). *)
Definition lit (s : string) : jsstring :=
  List.map N_of_ascii (list_ascii_of_string s).

Definition dquote : codeunit := 34.
Definition CR : codeunit := 13.
Definition LF : codeunit := 10.
Definition CRLF : jsstring := [CR; LF].
Definition CRLFCRLF : jsstring := [CR; LF; CR; LF].

(** [s.startsWith(p)] *)
Fixpoint startsWith (p s : jsstring) : bool :=
  match p, s with
  | [], _ => true
  | _ :: _, [] => false
  | a :: p', b :: s' => (a =? b) && startsWith p' s'
  end.

(** [s.includes(p)]: [p] occurs at some index of [s]. *)
Fixpoint includes (p s : jsstring) : bool :=
  startsWith p s ||
  match s with
  | [] => false
  | _ :: s' => includes p s'
  end.

(** [s.split(sep)] for a string separator.  [split_go sep skip s] scans [s]
    from the left; [skip] counts the code units of a separator that was
    just recognised and is still to be stepped over.  It returns the piece
    under construction and the pieces after it. *)
Fixpoint split_go (sep : jsstring) (skip : nat) (s : jsstring)
  : jsstring * list jsstring :=
  match s with
  | [] => ([], [])
  | c :: s' =>
      match skip with
      | S k => split_go sep k s'
      | O =>
          if startsWith sep s
          then ([], let '(p, ps) := split_go sep (length sep - 1) s' in p :: ps)
          else let '(p, ps) := split_go sep 0 s' in (c :: p, ps)
      end
  end.

Definition split (sep s : jsstring) : list jsstring :=
  match sep with
  | [] => List.map (fun c => [c]) s
  | _ :: _ => let '(p, ps) := split_go sep 0 s in p :: ps
  end.

(** The longest prefix whose code units all satisfy [f]. *)
Fixpoint takeWhile (f : codeunit -> bool) (s : jsstring) : jsstring :=
  match s with
  | [] => []
  | c :: s' => if f c then c :: takeWhile f s' else []
  end.

(** [s.match(re)] without the [g] flag tries the pattern at index 0, 1, ...,
    [length s] and returns the first success; [at_] is the pattern anchored
    at the start of its argument. *)
Fixpoint regex_search {A} (at_ : jsstring -> option A) (s : jsstring) : option A :=
  match at_ s with
  | Some r => Some r
  | None =>
      match s with
      | [] => None
      | _ :: s' => regex_search at_ s'
      end
  end.

(** The pattern [key] DQ ( [^DQ]+ ) DQ anchored, where DQ stands for the
    double quote: the literal [key], a double quote, a greedy non-empty run
    of code units other than the double quote, and a double quote.  The run
    is maximal, so the pattern matches exactly when the run is non-empty and
    is followed by a code unit (which is then the quote).  The result is the
    capture group. *)
Definition quoted_at (key s : jsstring) : option jsstring :=
  if startsWith (key ++ [dquote]) s then
    let rest := drop (length key + 1) s in
    let run := takeWhile (fun c => negb (c =? dquote)) rest in
    match run, drop (length run) rest with
    | _ :: _, _ :: _ => Some run
    | _, _ => None
    end
  else None.

(** The pattern [key] ( [^\r\n]+ ) anchored: the literal and a greedy
    non-empty run of code units other than CR and LF, which is the capture
    group. *)
Definition line_at (key s : jsstring) : option jsstring :=
  if startsWith key s then
    match takeWhile (fun c => negb (c =? CR) && negb (c =? LF)) (drop (length key) s) with
    | [] => None
    | run => Some run
    end
  else None.

(** [s.replace(/\n/g, r)] *)
Definition replace_LF (r s : jsstring) : jsstring :=
  flat_map (fun c => if c =? LF then r else [c]) s.

(** A template-literal substitution [${x}]: [undefined] prints as the
    word. *)
Definition tpl (x : option jsstring) : jsstring :=
  match x with
  | Some s => s
  | None => lit "undefined"
  end.

End Js.
Export Js.

(** ** Buffers and their encodings *)

Abbreviation Bytes := (list byte) (only parsing).

Module Buffer.

(** [Buffer.concat(chunks)] *)
Definition concat (chunks : list Bytes) : Bytes := List.concat chunks.

(** The state of the UTF-8 decoder between two bytes: at a character
    boundary, or inside a sequence with the bits read so far, the number of
    continuation bytes still expected and the range allowed for the next
    one. *)
Inductive Utf8State :=
| Start
| Cont (cp : N) (more : nat) (lo hi : N).

Definition replacement : codeunit := 0xFFFD.

(** A code point as UTF-16: one unit, or a surrogate pair above the BMP. *)
Definition utf16_units (cp : N) : jsstring :=
  if cp <? 0x10000 then [cp]
  else [0xD800 + (cp - 0x10000) / 0x400; 0xDC00 + (cp - 0x10000) mod 0x400].

Definition utf8_lead (b : N) : jsstring * Utf8State :=
  if b <=? 0x7F then ([b], Start)
  else if (0xC2 <=? b) && (b <=? 0xDF) then
    ([], Cont (N.land b 0x1F) 1 0x80 0xBF)
  else if (0xE0 <=? b) && (b <=? 0xEF) then
    ([], Cont (N.land b 0xF) 2 (if b =? 0xE0 then 0xA0 else 0x80)
                               (if b =? 0xED then 0x9F else 0xBF))
  else if (0xF0 <=? b) && (b <=? 0xF4) then
    ([], Cont (N.land b 0x7) 3 (if b =? 0xF0 then 0x90 else 0x80)
                               (if b =? 0xF4 then 0x8F else 0xBF))
  else ([replacement], Start).

(** One byte of input.  A byte that cannot continue the open sequence ends
    it with U+FFFD and is then read again as the start of a sequence. *)
Definition utf8_step (st : Utf8State) (b : N) : jsstring * Utf8State :=
  match st with
  | Start => utf8_lead b
  | Cont cp more lo hi =>
      if (lo <=? b) && (b <=? hi) then
        let cp' := N.lor (N.shiftl cp 6) (N.land b 0x3F) in
        match more with
        | S (S k) => ([], Cont cp' (S k) 0x80 0xBF)
        | _ => (utf16_units cp', Start)
        end
      else
        let '(out, st') := utf8_lead b in (replacement :: out, st')
  end.

Fixpoint utf8_decode (st : Utf8State) (bs : Bytes) : jsstring :=
  match bs with
  | [] => match st with Start => [] | Cont _ _ _ _ => [replacement] end
  | b :: bs' =>
      let '(out, st') := utf8_step st (Byte.to_N b) in
      out ++ utf8_decode st' bs'
  end.

(** [buffer.toString()]: the default encoding is UTF-8, ill-formed input
    becomes U+FFFD. *)
Definition toString (b : Bytes) : jsstring := utf8_decode Start b.

Definition byte_of_N (n : N) : byte :=
  match Byte.of_N (n mod 256) with
  | Some b => b
  | None => x00
  end.

(** [Buffer.from(s, 'binary')]: the low byte of every code unit. *)
Definition from_binary (s : jsstring) : Bytes := List.map byte_of_N s.

Definition is_high_surrogate (c : codeunit) : bool := (0xD800 <=? c) && (c <=? 0xDBFF).
Definition is_low_surrogate (c : codeunit) : bool := (0xDC00 <=? c) && (c <=? 0xDFFF).

Definition utf8_of_cp (cp : N) : list N :=
  if cp <? 0x80 then [cp]
  else if cp <? 0x800 then [0xC0 + cp / 0x40; 0x80 + cp mod 0x40]
  else if cp <? 0x10000 then
    [0xE0 + cp / 0x1000; 0x80 + (cp / 0x40) mod 0x40; 0x80 + cp mod 0x40]
  else
    [0xF0 + cp / 0x40000; 0x80 + (cp / 0x1000) mod 0x40;
     0x80 + (cp / 0x40) mod 0x40; 0x80 + cp mod 0x40].

(** [Buffer.from(s)]: UTF-8, a surrogate without its partner becomes
    U+FFFD. *)
Fixpoint utf8_units (s : jsstring) : list N :=
  match s with
  | [] => []
  | c :: s' =>
      if is_high_surrogate c then
        match s' with
        | d :: s'' =>
            if is_low_surrogate d
            then utf8_of_cp (0x10000 + (c - 0xD800) * 0x400 + (d - 0xDC00)) ++ utf8_units s''
            else utf8_of_cp replacement ++ utf8_units s'
        | [] => utf8_of_cp replacement
        end
      else if is_low_surrogate c then utf8_of_cp replacement ++ utf8_units s'
      else utf8_of_cp c ++ utf8_units s'
  end.

Definition from_utf8 (s : jsstring) : Bytes := List.map byte_of_N (utf8_units s).

Definition base64_digit (n : N) : codeunit :=
  if n <? 26 then 65 + n
  else if n <? 52 then 97 + (n - 26)
  else if n <? 62 then 48 + (n - 52)
  else if n =? 62 then 43 else 47.

Fixpoint base64_units (bs : list N) : jsstring :=
  match bs with
  | [] => []
  | [a] => [base64_digit (a / 4); base64_digit ((a mod 4) * 16); 61; 61]
  | [a; b] =>
      [base64_digit (a / 4); base64_digit ((a mod 4) * 16 + b / 16);
       base64_digit ((b mod 16) * 4); 61]
  | a :: b :: c :: rest =>
      [base64_digit (a / 4); base64_digit ((a mod 4) * 16 + b / 16);
       base64_digit ((b mod 16) * 4 + c / 64); base64_digit (c mod 64)]
      ++ base64_units rest
  end.

(** [buffer.toString('base64')] *)
Definition toBase64 (b : Bytes) : jsstring := base64_units (List.map Byte.to_N b).

End Buffer.

(** ** Values, errors and promises *)

(** The JSON-like values that cross the handler's boundary: response
    bodies, upstream payloads and console arguments.  Numbers are carried
    through unchanged by the handler and are kept as integers.  An object
    is the list of its own properties. *)
#[local] Unset Elimination Schemes.
Inductive jsval :=
| JUndefined
| JNull
| JBool (b : bool)
| JNum (n : Z)
| JStr (s : jsstring)
| JArr (items : list jsval)
| JObj (props : list (jsstring * jsval)).
#[local] Set Elimination Schemes.

(** An optional string as a value: [undefined] when absent. *)
Definition of_opt (x : option jsstring) : jsval :=
  match x with
  | Some s => JStr s
  | None => JUndefined
  end.

(** What the handler reads of a thrown value: [error.message] and
    [error.response.data] ([err_response] is [None] when the error has no
    [response]). *)
Record JsError := { err_message : jsstring; err_response : option jsval }.

(** The [TypeError] of a property read on [undefined] or [null], with the
    message that V8 gives it. *)
Definition TypeError_read (of_ : string) (prop : string) : JsError :=
  {| err_message :=
       lit "Cannot read properties of " ++ lit of_ ++ lit " (reading '"
       ++ lit prop ++ lit "')";
     err_response := None |}.

(** The [TypeError] of [Buffer.from(undefined, 'binary')]. *)
Definition TypeError_invalid_arg : JsError :=
  {| err_message :=
       lit "The first argument must be of type string or an instance of Buffer, ArrayBuffer, or Array or an Array-like Object. Received undefined";
     err_response := None |}.

Inductive Result (A : Type) :=
| Ok (a : A)
| Err (e : JsError).
Arguments Ok {A} a.
Arguments Err {A} e.

(** The state of a promise when nothing more can happen to it. *)
Inductive Settled (A : Type) :=
| Resolved (a : A)
| Rejected (e : JsError)
| Pending.
Arguments Resolved {A} a.
Arguments Rejected {A} e.
Arguments Pending {A}.

(** ** The multipart decoder *)

Record FileData := { name : jsstring; data : Bytes; contentType : jsstring }.

Record DecodedForm := { fields : gmap jsstring jsstring; file : option FileData }.

Definition s_Content_Disposition : jsstring := lit "Content-Disposition".

(** [part.match] with the three patterns of the source. *)
Definition match_name (part : jsstring) : option jsstring :=
  regex_search (quoted_at (lit "name=")) part.
Definition match_filename (part : jsstring) : option jsstring :=
  regex_search (quoted_at (lit "filename=")) part.
Definition match_contentType (part : jsstring) : option jsstring :=
  regex_search (line_at (lit "Content-Type: ")) part.

(** [fields[k] = v] on an object literal.  The key [__proto__] reaches the
    setter inherited from [Object.prototype], which ignores a string; every
    other key becomes, or overwrites, an own property. *)
Definition set_field (k v : jsstring) (fs : gmap jsstring jsstring)
  : gmap jsstring jsstring :=
  if decide (k = lit "__proto__") then fs else <[k := v]> fs.

(** The value of a text field:
    [part.split('\r\n\r\n')[1]?.split('\r\n')[0]]. *)
Definition field_value (part : jsstring) : option jsstring :=
  match split CRLFCRLF part !! 1%nat with
  | None => None
  | Some body => split CRLF body !! 0%nat
  end.

(** The file branch of the callback; [fname] is the capture of the
    filename pattern.  Reading [split] on a missing second piece throws; the
    first piece of a split always exists, the case without it is there for
    the indexing only. *)
Definition file_of_part (fname part : jsstring) : Result FileData :=
  let contentTypeMatch := match_contentType part in
  match split CRLFCRLF part !! 1%nat with
  | None => Err (TypeError_read "undefined" "split")
  | Some fileContent =>
      match split (CRLF ++ lit "--") fileContent !! 0%nat with
      | None => Err TypeError_invalid_arg
      | Some payload =>
          Ok {| name := fname;
                data := Buffer.from_binary payload;
                contentType :=
                  match contentTypeMatch with
                  | Some ct => ct
                  | None => lit "application/octet-stream"
                  end |}
      end
  end.

(** The callback of [parts.forEach]: one part against the form decoded so
    far. *)
Definition parse_part (st : DecodedForm) (part : jsstring) : Result DecodedForm :=
  if includes s_Content_Disposition part then
    let nameMatch := match_name part in
    let filenameMatch := match_filename part in
    match filenameMatch with
    | Some fname =>
        match file_of_part fname part with
        | Ok fd => Ok {| fields := fields st; file := Some fd |}
        | Err e => Err e
        end
    | None =>
        match nameMatch with
        | Some n =>
            match field_value part with
            | Some (c :: v) => Ok {| fields := set_field n (c :: v) (fields st); file := file st |}
            | Some [] | None => Ok st
            end
        | None => Ok st
        end
    end
  else Ok st.

(** [parts.forEach(callback)]: in order; an exception ends the loop. *)
Fixpoint forEach (st : DecodedForm) (parts : list jsstring) : Result DecodedForm :=
  match parts with
  | [] => Ok st
  | part :: parts' =>
      match parse_part st part with
      | Ok st' => forEach st' parts'
      | Err e => Err e
      end
  end.

(** The boundary as the source reads it from the header:
    [header.split('boundary=')[1]], and the delimiter built from it by the
    template literal. *)
Definition boundary_of (header : jsstring) : option jsstring :=
  split (lit "boundary=") header !! 1%nat.

Definition delimiter (header : jsstring) : jsstring :=
  lit "--" ++ tpl (boundary_of header).

(** The parts of a body as the source cuts them. *)
Definition parts_of (header : jsstring) (buffer : Bytes) : list jsstring :=
  split (delimiter header) (Buffer.toString buffer).

(** The body of the [end] listener, with the chunks received and the
    [content-type] header ([None] when the request has none). *)
Definition on_end (content_type : option jsstring) (chunks : list Bytes)
  : Result DecodedForm :=
  let buffer := Buffer.concat chunks in
  match content_type with
  | None => Err (TypeError_read "undefined" "split")
  | Some header =>
      forEach {| fields := ∅; file := None |} (parts_of header buffer)
  end.

(** What the request stream emits. *)
Inductive StreamEvent :=
| EvData (chunk : Bytes)
| EvEnd
| EvError (e : JsError).

Record Request := {
  method : jsstring;
  content_type : option jsstring;
  stream : list StreamEvent
}.

(** The listeners of the promise: [data] pushes the chunk, [end] decodes
    and settles the promise, [error] rejects it.  A promise settles once,
    so what the stream emits after that is without effect; a stream that
    emits neither [end] nor [error] leaves the promise pending. *)
Fixpoint listen (content_type : option jsstring) (chunks : list Bytes)
    (evs : list StreamEvent) : Settled DecodedForm :=
  match evs with
  | [] => Pending
  | EvData chunk :: evs' => listen content_type (chunks ++ [chunk]) evs'
  | EvEnd :: _ =>
      match on_end content_type chunks with
      | Ok form => Resolved form
      | Err e => Rejected e
      end
  | EvError e :: _ => Rejected e
  end.

Definition parseMultipartForm (req : Request) : Settled DecodedForm :=
  listen (content_type req) [] (stream req).

(** ** Values as the handler uses them *)

Definition prop (k : string) (v : jsval) : jsstring * jsval := (lit k, v).
Definition jstr (s : string) : jsval := JStr (lit s).

(** Truthiness, for [||], [?:] and [if]. *)
Definition truthy (v : jsval) : bool :=
  match v with
  | JUndefined | JNull => false
  | JBool b => b
  | JNum n => negb (n =? 0)%Z
  | JStr s => match s with [] => false | _ :: _ => true end
  | JArr _ | JObj _ => true
  end.

(** [a || b] *)
Definition or_else (a b : jsval) : jsval := if truthy a then a else b.

Fixpoint own_prop (k : jsstring) (props : list (jsstring * jsval)) : jsval :=
  match props with
  | [] => JUndefined
  | (k', v) :: props' => if decide (k' = k) then v else own_prop k props'
  end.

(** [v?.k]: [undefined] on [undefined] and [null]; the handler reads only
    names that no prototype defines, so everything but an object with the
    property gives [undefined]. *)
Definition get_opt (v : jsval) (k : string) : jsval :=
  match v with
  | JObj props => own_prop (lit k) props
  | _ => JUndefined
  end.

(** [v.k]: a [TypeError] on [undefined] and [null]. *)
Definition get (v : jsval) (k : string) : Result jsval :=
  match v with
  | JUndefined => Err (TypeError_read "undefined" k)
  | JNull => Err (TypeError_read "null" k)
  | _ => Ok (get_opt v k)
  end.

(** ** The outside of the handler *)

(** [process.env] *)
Record Env := {
  GORGIAS_SUBDOMAIN : option jsstring;
  GORGIAS_USERNAME : option jsstring;
  GORGIAS_API_KEY : option jsstring;
  GORGIAS_EMAIL : option jsstring
}.

(** [getBasicAuth(username, password)] *)
Definition getBasicAuth (username password : option jsstring) : jsstring :=
  lit "Basic "
  ++ Buffer.toBase64 (Buffer.from_utf8 (tpl username ++ lit ":" ++ tpl password)).

(** The [FormData] of the upload: one [append] of the file under the field
    [file] with its name and content type. *)
Record UploadForm := {
  form_field : jsstring;
  form_data : Bytes;
  form_filename : jsstring;
  form_contentType : jsstring
}.

(** The two [axios.post] calls: address, [Authorization] header and body.
    (The upload also sends the headers of its [FormData], the ticket the
    constant [Content-Type: application/json].) *)
Record UploadCall := {
  upload_url : jsstring;
  upload_authorization : jsstring;
  upload_form : UploadForm
}.

Record TicketCall := {
  ticket_url : jsstring;
  ticket_authorization : jsstring;
  ticket_body : jsval
}.

(** What comes back from the helpdesk: no response at all (with the
    message of the failure), or a status and the decoded body. *)
Inductive Reply :=
| NoReply (msg : jsstring)
| HttpReply (code : Z) (payload : jsval).

Record World := {
  upload_reply : UploadCall -> Reply;
  ticket_reply : TicketCall -> Reply
}.

Definition decimal (n : Z) : jsstring :=
  lit (NilZero.string_of_int (Z.to_int n)).

(** [await axios.post(...)] with the default [validateStatus]: the promise
    resolves on a 2xx status and rejects otherwise, with the response on
    the error.  The result is [response.data]. *)
Definition axios_post (r : Reply) : Result jsval :=
  match r with
  | NoReply msg => Err {| err_message := msg; err_response := None |}
  | HttpReply code payload =>
      if ((200 <=? code) && (code <? 300))%Z then Ok payload
      else Err {| err_message := lit "Request failed with status code " ++ decimal code;
                  err_response := Some payload |}
  end.

Inductive Event :=
| ConsoleLog (args : list jsval)
| ConsoleError (args : list jsval)
| UploadPost (call : UploadCall)
| TicketPost (call : TicketCall).

Inductive ResBody :=
| BodyEnd
| BodyJson (v : jsval).

Record Response := {
  status : Z;
  headers : list (jsstring * jsstring);
  body : ResBody
}.

(** A run of the handler: what it did, in order, and the response it sent
    ([None] when it never answers). *)
Record Outcome := { trace : list Event; response : option Response }.

Definition is_upstream (e : Event) : bool :=
  match e with
  | UploadPost _ | TicketPost _ => true
  | _ => false
  end.

Definition is_ticket (e : Event) : bool :=
  match e with
  | TicketPost _ => true
  | _ => false
  end.

(** ** The handler *)

Definition cors_headers : list (jsstring * jsstring) :=
  [ (lit "Access-Control-Allow-Origin", lit "*");
    (lit "Access-Control-Allow-Methods", lit "POST, OPTIONS");
    (lit "Access-Control-Allow-Headers", lit "Content-Type") ].

(** [error.response?.data] *)
Definition response_data (error : JsError) : jsval :=
  match err_response error with
  | Some d => d
  | None => JUndefined
  end.

(** [error.response?.data?.errors || error.message] *)
Definition error_details (error : JsError) : jsval :=
  or_else (get_opt (response_data error) "errors") (JStr (err_message error)).

(** The [catch] block; [hs] are the headers set and [tr] the trace so
    far. *)
Definition catch_block (hs : list (jsstring * jsstring)) (tr : list Event)
    (error : JsError) : Outcome :=
  {| trace := tr ++ [ConsoleError [jstr "Error processing form:";
                                   or_else (response_data error) (JStr (err_message error))]];
     response := Some {| status := 500; headers := hs;
                         body := BodyJson (JObj [prop "error" (jstr "Form submission failed");
                                                 prop "details" (error_details error)]) |} |}.

Definition nl : jsstring := [LF].

Definition messageHtml (companyName email organizationType message : option jsstring)
    (fileName : jsstring) : jsstring :=
  nl ++ lit "      <h3>B2B Form Submission</h3>" ++ nl
  ++ lit "      <p><strong>Company:</strong> " ++ tpl companyName ++ lit "</p>" ++ nl
  ++ lit "      <p><strong>Email:</strong> " ++ tpl email ++ lit "</p>" ++ nl
  ++ lit "      <p><strong>Organization Type:</strong> " ++ tpl organizationType ++ lit "</p>" ++ nl
  ++ lit "      <p><strong>Message:</strong></p>" ++ nl
  ++ lit "      <p>"
  ++ match message with
     | Some (c :: m) => replace_LF (lit "<br>") (c :: m)
     | _ => lit "No message provided"
     end
  ++ lit "</p>" ++ nl
  ++ lit "      <p><strong>Attached Document:</strong> " ++ fileName ++ lit "</p>" ++ nl
  ++ lit "    ".

Definition messageText (companyName email organizationType message : option jsstring)
    (fileName : jsstring) : jsstring :=
  nl ++ lit "B2B Form Submission" ++ nl
  ++ lit "Company: " ++ tpl companyName ++ nl
  ++ lit "Email: " ++ tpl email ++ nl
  ++ lit "Organization Type: " ++ tpl organizationType ++ nl
  ++ lit "Message: "
  ++ match message with
     | Some (c :: m) => c :: m
     | _ => lit "No message provided"
     end
  ++ nl
  ++ lit "Attached Document: " ++ fileName ++ nl
  ++ lit "    ".

(** The body of the ticket request; [url], [name_], [size] and [ctype] are
    the four properties read from the upload's response. *)
Definition ticket_json (env : Env)
    (companyName email organizationType message : option jsstring)
    (fileName : jsstring) (url name_ size ctype : jsval) : jsval :=
  JObj [
    prop "channel" (jstr "email");
    prop "via" (jstr "api");
    prop "customer" (JObj [prop "email" (of_opt email); prop "name" (of_opt companyName)]);
    prop "messages" (JArr [
      JObj [
        prop "source" (JObj [
          prop "type" (jstr "email");
          prop "to" (JArr [JObj [prop "address" (of_opt (GORGIAS_EMAIL env))]]);
          prop "from" (JObj [prop "address" (of_opt email)])]);
        prop "body_html" (JStr (messageHtml companyName email organizationType message fileName));
        prop "body_text" (JStr (messageText companyName email organizationType message fileName));
        prop "channel" (jstr "email");
        prop "from_agent" (JBool false);
        prop "via" (jstr "api");
        prop "attachments" (JArr [
          JObj [prop "url" url; prop "name" name_; prop "size" size;
                prop "content_type" ctype]])]]);
    prop "subject" (JStr (lit "B2B Form Submission - " ++ tpl companyName));
    prop "tags" (JArr [jstr "b2b-form"; of_opt organizationType])].

Definition upload_call (env : Env) (file : FileData) : UploadCall :=
  {| upload_url := lit "https://" ++ tpl (GORGIAS_SUBDOMAIN env)
                   ++ lit ".gorgias.com/api/upload?type=attachment";
     upload_authorization := getBasicAuth (GORGIAS_USERNAME env) (GORGIAS_API_KEY env);
     upload_form := {| form_field := lit "file"; form_data := data file;
                       form_filename := name file;
                       form_contentType := contentType file |} |}.

(** The four reads [uploadResponse.data.url], [.name], [.size] and
    [.content_type] of the ticket body, in this order; the first throws
    when the data is [undefined] or [null]. *)
Definition ticket_call (env : Env)
    (companyName email organizationType message : option jsstring)
    (fileName : jsstring) (uploaded : jsval) : Result TicketCall :=
  match get uploaded "url" with
  | Err e => Err e
  | Ok url =>
  match get uploaded "name" with
  | Err e => Err e
  | Ok name_ =>
  match get uploaded "size" with
  | Err e => Err e
  | Ok size =>
  match get uploaded "content_type" with
  | Err e => Err e
  | Ok ctype =>
      Ok {| ticket_url := lit "https://" ++ tpl (GORGIAS_SUBDOMAIN env)
                          ++ lit ".gorgias.com/api/tickets";
            ticket_authorization := getBasicAuth (GORGIAS_USERNAME env) (GORGIAS_API_KEY env);
            ticket_body := ticket_json env companyName email organizationType message
                             fileName url name_ size ctype |}
  end end end end.

(** The [try] block after a successful decode; [hs] are the headers set
    before it. *)
Definition submit (env : Env) (world : World) (hs : list (jsstring * jsstring))
    (form : DecodedForm) : Outcome :=
  let companyName := fields form !! lit "companyName" in
  let email := fields form !! lit "email" in
  let organizationType := fields form !! lit "organizationType" in
  let message := fields form !! lit "message" in
  let tr1 := [ConsoleLog [jstr "Processing submission:";
                          JObj [prop "companyName" (of_opt companyName);
                                prop "email" (of_opt email);
                                prop "organizationType" (of_opt organizationType)]]] in
  match file form with
  | None =>
      {| trace := tr1;
         response := Some {| status := 400; headers := hs;
                             body := BodyJson (JObj [prop "error" (jstr "No file uploaded")]) |} |}
  | Some file =>
      let upload := upload_call env file in
      let tr2 := tr1 ++ [ConsoleLog [jstr "Uploading file to Gorgias..."]; UploadPost upload] in
      match axios_post (upload_reply world upload) with
      | Err e => catch_block hs tr2 e
      | Ok uploaded =>
          let tr3 := tr2 ++ [ConsoleLog [jstr "File uploaded successfully:"; uploaded];
                             ConsoleLog [jstr "Creating Gorgias ticket..."]] in
          match ticket_call env companyName email organizationType message
                  (name file) uploaded with
          | Err e => catch_block hs tr3 e
          | Ok ticket =>
              let tr4 := tr3 ++ [TicketPost ticket] in
              match axios_post (ticket_reply world ticket) with
              | Err e => catch_block hs tr4 e
              | Ok created =>
                  match get created "id" with
                  | Err e => catch_block hs tr4 e
                  | Ok id =>
                      {| trace := tr4 ++ [ConsoleLog [jstr "Ticket created successfully:"; id]];
                         response :=
                           Some {| status := 200; headers := hs;
                                   body := BodyJson (JObj [
                                     prop "success" (JBool true);
                                     prop "ticketId" id;
                                     prop "message" (jstr "Form submitted successfully");
                                     prop "attachmentUrl" (get_opt uploaded "url")]) |} |}
                  end
              end
          end
      end
  end.

(** [handler(req, res)].  The method test comes first, before any header
    is set; the three [setHeader] calls follow; the preflight test comes
    after them. *)
Definition handler (env : Env) (world : World) (req : Request) : Outcome :=
  if negb (bool_decide (method req = lit "POST")) then
    {| trace := [];
       response := Some {| status := 405; headers := [];
                           body := BodyJson (JObj [prop "error" (jstr "Method not allowed")]) |} |}
  else
    let hs := cors_headers in
    if bool_decide (method req = lit "OPTIONS") then
      {| trace := []; response := Some {| status := 200; headers := hs; body := BodyEnd |} |}
    else
      match parseMultipartForm req with
      | Pending => {| trace := []; response := None |}
      | Rejected e => catch_block hs [] e
      | Resolved form => submit env world hs form
      end.

(** ** What a request delivers *)

(** The chunks that reach the [data] listener before the promise settles. *)
Fixpoint received (evs : list StreamEvent) : list Bytes :=
  match evs with
  | EvData chunk :: evs' => chunk :: received evs'
  | _ => []
  end.

(** The stream delivers its body: the first event that is not [data] is
    [end]. *)
Fixpoint completes (evs : list StreamEvent) : bool :=
  match evs with
  | EvData _ :: evs' => completes evs'
  | EvEnd :: _ => true
  | _ => false
  end.

(** The bytes of the body of a request. *)
Definition body_of (req : Request) : Bytes := Buffer.concat (received (stream req)).

(** The decoder takes a part for a file when it has the disposition token
    and the filename pattern matches, and for a text field named [n] when
    it has the token, the filename pattern fails and the name pattern
    captures [n]. *)
Definition is_file_part (part : jsstring) : bool :=
  includes s_Content_Disposition part
  && match match_filename part with Some _ => true | None => false end.

Definition is_field_part (n part : jsstring) : Prop :=
  includes s_Content_Disposition part = true
  /\ match_filename part = None
  /\ match_name part = Some n.

(** A value that [if (value)] rejects: [undefined] or the empty string. *)
Definition falsy (value : option jsstring) : Prop :=
  value = None \/ value = Some [].

(** The outcome of an upstream call that fails: no response, or a status
    outside 2xx. *)
Definition failed (r : Reply) : Prop :=
  match r with
  | NoReply _ => True
  | HttpReply code _ => ~ (200 <= code < 300)%Z
  end.

(** The response of the method gate. *)
Definition method_not_allowed : Response :=
  {| status := 405; headers := [];
     body := BodyJson (JObj [prop "error" (jstr "Method not allowed")]) |}.

(** ** Well-formed submissions

    The client's side of the round trip, which is not code of this
    repository: the body that a browser sends for a form (RFC 7578).  Every
    part is introduced by the delimiter [--B] and consists of a header
    block, an empty line and the content; the body ends with [--B--].  The
    content of a file part is given as the text that the bytes of the file
    decode to. *)

Inductive Part :=
| Field (n v : jsstring)
| File (n filename ctype content : jsstring).

Definition disposition (n : jsstring) : jsstring :=
  lit "Content-Disposition: form-data; name=" ++ [dquote] ++ n ++ [dquote].

Definition part_text (p : Part) : jsstring :=
  match p with
  | Field n v => CRLF ++ disposition n ++ CRLFCRLF ++ v ++ CRLF
  | File n filename ctype content =>
      CRLF ++ disposition n ++ lit "; filename=" ++ [dquote] ++ filename ++ [dquote]
      ++ CRLF ++ lit "Content-Type: " ++ ctype ++ CRLFCRLF ++ content ++ CRLF
  end.

Definition multipart_text (B : jsstring) (parts : list Part) : jsstring :=
  flat_map (fun p => lit "--" ++ B ++ part_text p) parts
  ++ lit "--" ++ B ++ lit "--" ++ CRLF.

Definition multipart_header (B : jsstring) : jsstring :=
  lit "multipart/form-data; boundary=" ++ B.

(** The conditions under which the string-splitting decoder reads a part
    back.  A boundary is non-empty, has no line break and does not contain
    the text by which the decoder finds it in the header. *)
Definition boundary_ok (B : jsstring) : Prop :=
  B <> [] /\ ~ In CR B /\ ~ In LF B /\ includes (lit "boundary=") B = false.

(** A text field: the name is non-empty, has no double quote and no CR,
    does not contain [filename=] and is not [__proto__]; the value is
    non-empty, has no CR and does not contain [filename=] followed by a
    double quote. *)
Definition field_ok (n v : jsstring) : Prop :=
  n <> [] /\ ~ In dquote n /\ ~ In CR n
  /\ includes (lit "filename=") n = false
  /\ n <> lit "__proto__"
  /\ v <> [] /\ ~ In CR v
  /\ includes (lit "filename=" ++ [dquote]) v = false.

(** A file part: the field name has no double quote, and neither
    [filename=] nor the content-type token occurs in it; the file name is
    non-empty, has no double quote and does not contain the content-type
    token; the content type is non-empty and has no line break. *)
Definition file_ok (n filename ctype : jsstring) : Prop :=
  ~ In dquote n
  /\ includes (lit "filename=") n = false
  /\ includes (lit "Content-Type: ") n = false
  /\ filename <> [] /\ ~ In dquote filename
  /\ includes (lit "Content-Type: ") filename = false
  /\ ctype <> [] /\ ~ In CR ctype /\ ~ In LF ctype.

(** A part of a body with boundary [B]: the delimiter does not occur in
    its text, and it satisfies the conditions of its kind. *)
Definition part_ok (B : jsstring) (p : Part) : Prop :=
  includes (lit "--" ++ B) (part_text p) = false
  /\ match p with
     | Field n v => field_ok n v
     | File n filename ctype _ => file_ok n filename ctype
     end.

(** [hit] holds at no index of [a] in the text [a ++ rest]. *)
Fixpoint nowhere (hit : jsstring -> bool) (a rest : jsstring) : Prop :=
  match a with
  | [] => True
  | _ :: a' => hit (a ++ rest) = false /\ nowhere hit a' rest
  end.

(** The bytes a decoded file part carries, as the file branch computes
    them. *)
Definition decoded_payload (part : jsstring) : Bytes :=
  match file_of_part [] part with
  | Ok fd => data fd
  | Err _ => []
  end.

(** The effect that a well-formed part is meant to have on the form. *)
Definition put_part (st : DecodedForm) (p : Part) : DecodedForm :=
  match p with
  | Field n v => {| fields := <[n := v]> (fields st); file := file st |}
  | File _ filename ctype _ =>
      {| fields := fields st;
         file := Some {| name := filename; data := decoded_payload (part_text p);
                         contentType := ctype |} |}
  end.

Definition field_names (parts : list Part) : list jsstring :=
  omap (fun p => match p with Field n _ => Some n | File _ _ _ _ => None end) parts.

Definition files_of (parts : list Part) : list Part :=
  omap (fun p => match p with File _ _ _ _ => Some p | Field _ _ => None end) parts.

(** ** Sample requests *)

Definition ex_env : Env :=
  {| GORGIAS_SUBDOMAIN := Some (lit "acme");
     GORGIAS_USERNAME := Some (lit "agent@acme.test");
     GORGIAS_API_KEY := Some (lit "secret");
     GORGIAS_EMAIL := Some (lit "support@acme.test") |}.

Definition ex_uploaded : jsval :=
  JObj [prop "url" (jstr "https://cdn.test/d.pdf"); prop "name" (jstr "d.pdf");
        prop "size" (JNum 7); prop "content_type" (jstr "application/pdf")].

(** A helpdesk that accepts both calls, and one whose upload endpoint
    answers 500. *)
Definition ex_world : World :=
  {| upload_reply := fun _ => HttpReply 200 ex_uploaded;
     ticket_reply := fun _ => HttpReply 201 (JObj [prop "id" (JNum 42)]) |}.

Definition ex_world_down : World :=
  {| upload_reply := fun _ => HttpReply 500 (JObj [prop "errors" (jstr "unavailable")]);
     ticket_reply := fun _ => HttpReply 201 (JObj [prop "id" (JNum 42)]) |}.

Definition ex_B : jsstring := lit "XYZ".

(** A POST request that delivers [text], UTF-8 encoded, in one chunk. *)
Definition post (header : option jsstring) (text : jsstring) : Request :=
  {| method := lit "POST"; content_type := header;
     stream := [EvData (Buffer.from_utf8 text); EvEnd] |}.

Definition ex_file : Part :=
  File (lit "file") (lit "d.pdf") (lit "application/pdf") (lit "hello").

Definition ex_parts : list Part :=
  [Field (lit "companyName") (lit "Acme"); Field (lit "email") (lit "a@b.c");
   ex_file; Field (lit "organizationType") (lit "school")].

Definition ex_req : Request := post (Some (multipart_header ex_B)) (multipart_text ex_B ex_parts).

(** No file part. *)
Definition ex_req_no_file : Request :=
  post (Some (multipart_header ex_B))
       (multipart_text ex_B [Field (lit "email") (lit "a@b.c")]).

(** A file part and nothing else. *)
Definition ex_req_only_file : Request :=
  post (Some (multipart_header ex_B)) (multipart_text ex_B [ex_file]).



(** Three text fields, one of them submitted empty, and a file. *)
Definition ex_parts_empty_value : list Part :=
  [Field (lit "companyName") (lit "Acme"); Field (lit "email") (lit "a@b.c");
   Field (lit "message") []; ex_file].

Definition ex_req_empty_value : Request :=
  post (Some (multipart_header ex_B)) (multipart_text ex_B ex_parts_empty_value).

(** A file part that stops after its disposition line: no empty line, no
    content. *)
Definition ex_broken_part : jsstring :=
  CRLF ++ disposition (lit "file") ++ lit "; filename=" ++ [dquote] ++ lit "d.pdf"
  ++ [dquote] ++ CRLF.

Definition ex_req_broken : Request :=
  post (Some (multipart_header ex_B))
       (lit "--" ++ ex_B ++ ex_broken_part ++ lit "--" ++ ex_B ++ lit "--" ++ CRLF).

(** No [Content-Type] header at all, and a header without a boundary
    parameter. *)
Definition ex_req_no_header : Request :=
  post None (multipart_text ex_B [Field (lit "email") (lit "a@b.c")]).

Definition ex_req_no_boundary : Request :=
  post (Some (lit "multipart/form-data"))
       (multipart_text ex_B [Field (lit "email") (lit "a@b.c")]).

(** A part without any header between two delimiters. *)
Definition ex_req_headerless_part : Request :=
  post (Some (multipart_header ex_B))
       (lit "--" ++ ex_B ++ CRLFCRLF ++ lit "just text" ++ CRLF
        ++ lit "--" ++ ex_B ++ lit "--" ++ CRLF).

Definition ex_req_options : Request :=
  {| method := lit "OPTIONS"; content_type := None; stream := [EvEnd] |}.

Definition ex_req_get : Request :=
  {| method := lit "GET"; content_type := None; stream := [EvEnd] |}.

(** ** Notions for the further properties *)

(** [q] is a stretch of [s]. *)
Definition substring (q s : jsstring) : Prop := exists a b, s = a ++ q ++ b.

(** A code unit that may stand in a header value: ASCII, and neither CR
    nor LF. *)
Definition header_safe (c : codeunit) : Prop := c < 128 /\ c <> CR /\ c <> LF.

(** ** More sample requests *)

Definition ex_bytes : Bytes := Buffer.from_utf8 (multipart_text ex_B ex_parts).

Definition ex_decoded_file : FileData :=
  {| name := lit "d.pdf"; data := Buffer.from_utf8 (lit "hello" ++ CRLF);
     contentType := lit "application/pdf" |}.

Definition ex_form : DecodedForm :=
  {| fields := <[lit "organizationType" := lit "school"]>
                 (<[lit "email" := lit "a@b.c"]>
                    (<[lit "companyName" := lit "Acme"]> ∅));
     file := Some ex_decoded_file |}.

(** The body of [ex_req] in two chunks; without its end; and cut off by an
    error of the stream. *)
Definition ex_req_chunked : Request :=
  {| method := lit "POST"; content_type := Some (multipart_header ex_B);
     stream := [EvData (take 20 ex_bytes); EvData (drop 20 ex_bytes); EvEnd] |}.

Definition ex_req_pending : Request :=
  {| method := lit "POST"; content_type := Some (multipart_header ex_B);
     stream := [EvData (take 20 ex_bytes); EvData (drop 20 ex_bytes)] |}.

Definition ex_error : JsError :=
  {| err_message := lit "aborted"; err_response := None |}.

Definition ex_req_aborted : Request :=
  {| method := lit "POST"; content_type := Some (multipart_header ex_B);
     stream := [EvData (take 20 ex_bytes); EvError ex_error; EvEnd] |}.

(** A name submitted twice, and a field with the name of the prototype
    accessor. *)
Definition ex_req_repeated : Request :=
  post (Some (multipart_header ex_B))
       (multipart_text ex_B [Field (lit "email") (lit "a@b.c");
                             Field (lit "email") (lit "x@y.z"); ex_file]).

Definition ex_req_proto : Request :=
  post (Some (multipart_header ex_B))
       (multipart_text ex_B [Field (lit "__proto__") (lit "x")]).

(** A file part without content-type line. *)
Definition ex_part_no_ctype : jsstring :=
  CRLF ++ disposition (lit "file") ++ lit "; filename=" ++ [dquote] ++ lit "d.bin"
  ++ [dquote] ++ CRLFCRLF ++ lit "abc" ++ CRLF.

(** Helpdesks: the ticket endpoint does not answer; the upload is answered
    with [null]; the ticket request is answered with [null]. *)
Definition ex_world_ticket_down : World :=
  {| upload_reply := fun _ => HttpReply 200 ex_uploaded;
     ticket_reply := fun _ => NoReply (lit "socket hang up") |}.

Definition ex_world_null_upload : World :=
  {| upload_reply := fun _ => HttpReply 200 JNull;
     ticket_reply := fun _ => HttpReply 201 (JObj [prop "id" (JNum 42)]) |}.

Definition ex_world_null_ticket : World :=
  {| upload_reply := fun _ => HttpReply 200 ex_uploaded;
     ticket_reply := fun _ => HttpReply 201 JNull |}.

(** ** Parts with an empty file name *)



(** A part with the disposition token and an empty file name that stops
    after its disposition line. *)
Definition ex_broken_unnamed_part : jsstring :=
  CRLF ++ disposition (lit "file") ++ lit "; filename=" ++ [dquote; dquote] ++ CRLF.

Definition ex_req_broken_unnamed : Request :=
  post (Some (multipart_header ex_B))
       (lit "--" ++ ex_B ++ ex_broken_unnamed_part ++ lit "--" ++ ex_B ++ lit "--" ++ CRLF).

(** * Properties *)

(** ** Strings: prefixes, occurrences, splitting and searching *)

Section Strings.

Implicit Types (p sep a x s rest : jsstring) (c d : codeunit).

Lemma startsWith_app p rest : startsWith p (p ++ rest) = true.
Proof.
  induction p as [|c p IH]; [reflexivity|].
  cbn. rewrite N.eqb_refl. exact IH.
Qed.

Lemma startsWith_includes p s : startsWith p s = true -> includes p s = true.
Proof. intros H. destruct s; cbn in *; rewrite H; reflexivity. Qed.

Lemma includes_cons p c s : includes p s = true -> includes p (c :: s) = true.
Proof. intros H. cbn. rewrite H. apply orb_true_r. Qed.

Lemma includes_cons_false p c s :
  includes p (c :: s) = false -> startsWith p (c :: s) = false /\ includes p s = false.
Proof. cbn. intros H. apply orb_false_iff in H. exact H. Qed.

Lemma startsWith_app_l p x rest :
  startsWith p x = true -> startsWith p (x ++ rest) = true.
Proof.
  revert x. induction p as [|c p IH]; intros x H; [reflexivity|].
  destruct x as [|b x]; [discriminate|].
  cbn in *. apply andb_true_iff in H as [-> H]. cbn. apply IH, H.
Qed.

Lemma includes_app_l p x rest :
  includes p x = true -> includes p (x ++ rest) = true.
Proof.
  induction x as [|b x IH]; intros H.
  - destruct p; [|discriminate]. destruct rest; reflexivity.
  - cbn in H. apply orb_true_iff in H as [H|H].
    + apply startsWith_includes. apply (startsWith_app_l _ (b :: x)), H.
    + cbn [app]. apply includes_cons, IH, H.
Qed.

(** A pattern without [d] that starts in front of a [d] ends before it. *)
Lemma startsWith_stop p x d rest :
  ~ In d p -> startsWith p (x ++ d :: rest) = true -> startsWith p x = true.
Proof.
  revert x. induction p as [|c p IH]; intros x Hd H; [reflexivity|].
  destruct x as [|b x]; cbn in H; apply andb_true_iff in H as [Hc H].
  - apply N.eqb_eq in Hc. subst. exfalso. apply Hd. left. reflexivity.
  - cbn. rewrite Hc. apply IH; [|exact H]. intros Hin. apply Hd. right. exact Hin.
Qed.

(** A pattern that ends with its only [d], in front of the first [d] of
    the text: the text before that [d] is the pattern before its [d]. *)
Lemma startsWith_aligned p x d rest :
  ~ In d p -> ~ In d x -> startsWith (p ++ [d]) (x ++ d :: rest) = true -> x = p.
Proof.
  revert x. induction p as [|c p IH]; intros x Hp Hx H.
  - destruct x as [|b x]; [reflexivity|].
    cbn in H. apply andb_true_iff in H as [Hc _]. apply N.eqb_eq in Hc. subst.
    exfalso. apply Hx. left. reflexivity.
  - destruct x as [|b x]; cbn in H; apply andb_true_iff in H as [Hc H];
      apply N.eqb_eq in Hc; subst.
    + exfalso. apply Hp. left. reflexivity.
    + f_equal. apply IH; [| |exact H]; intros Hin; [apply Hp|apply Hx]; right; exact Hin.
Qed.

Lemma nowhere_app hit a x rest :
  nowhere hit a (x ++ rest) -> nowhere hit x rest -> nowhere hit (a ++ x) rest.
Proof.
  induction a as [|c a IH]; intros Ha Hx; [exact Hx|].
  destruct Ha as [H Ha]. cbn [app nowhere]. split.
  - rewrite <- app_assoc. exact H.
  - apply IH; assumption.
Qed.

Lemma nowhere_stop p x d rest :
  ~ In d p -> includes p x = false -> nowhere (startsWith p) x (d :: rest).
Proof.
  intros Hd. induction x as [|c x IH]; intros H; [exact I|].
  apply includes_cons_false in H as [H1 H2]. split; [|apply IH, H2].
  destruct (startsWith p ((c :: x) ++ d :: rest)) eqn:E; [|reflexivity].
  apply startsWith_stop in E; [congruence|exact Hd].
Qed.

Lemma nowhere_aligned p x d rest :
  ~ In d p -> ~ In d x -> includes p x = false ->
  nowhere (startsWith (p ++ [d])) x (d :: rest).
Proof.
  intros Hp. induction x as [|c x IH]; intros Hx H; [exact I|].
  apply includes_cons_false in H as [H1 H2]. split.
  - destruct (startsWith (p ++ [d]) ((c :: x) ++ d :: rest)) eqn:E; [|reflexivity].
    apply startsWith_aligned in E; [|exact Hp|exact Hx].
    rewrite E in H1. rewrite <- (app_nil_r p) in H1 at 2.
    rewrite startsWith_app in H1. discriminate.
  - apply IH; [|exact H2]. intros Hin. apply Hx. right. exact Hin.
Qed.

Lemma nowhere_head c p x rest :
  ~ In c x -> nowhere (startsWith (c :: p)) x rest.
Proof.
  induction x as [|b x IH]; intros Hx; [exact I|]. split.
  - cbn. destruct (N.eqb_spec c b) as [->|]; [|reflexivity].
    exfalso. apply Hx. left. reflexivity.
  - apply IH. intros Hin. apply Hx. right. exact Hin.
Qed.

(** A text that ends with [d] and does not contain a pattern without [d]:
    the pattern starts nowhere in it, whatever follows. *)
Lemma nowhere_closed c p x d rest :
  ~ In d (c :: p) -> includes (c :: p) (x ++ [d]) = false ->
  nowhere (startsWith (c :: p)) (x ++ [d]) rest.
Proof.
  intros Hd H. apply nowhere_app.
  - apply nowhere_stop; [exact Hd|].
    destruct (includes (c :: p) x) eqn:E; [|reflexivity].
    apply (includes_app_l _ _ [d]) in E. congruence.
  - split; [|exact I]. cbn. destruct (N.eqb_spec c d) as [->|]; [|reflexivity].
    exfalso. apply Hd. left. reflexivity.
Qed.

Lemma includes_false_nowhere p s :
  includes p s = false -> nowhere (startsWith p) s [].
Proof.
  induction s as [|c s IH]; intros H; [exact I|].
  apply includes_cons_false in H as [H1 H2].
  split; [rewrite app_nil_r; exact H1|apply IH, H2].
Qed.

Lemma includes_skip p a rest :
  nowhere (startsWith p) a rest -> includes p (a ++ rest) = includes p rest.
Proof.
  induction a as [|c a IH]; intros H; [reflexivity|].
  destruct H as [H1 H2]. cbn [app includes]. cbn [app] in H1. rewrite H1.
  cbn. apply IH, H2.
Qed.

Lemma split_go_skip sep l s :
  split_go sep (length l) (l ++ s) = split_go sep 0 s.
Proof. induction l as [|c l IH]; [reflexivity|exact IH]. Qed.

Lemma split_go_nowhere sep a rest :
  nowhere (startsWith sep) a rest ->
  split_go sep 0 (a ++ rest) = (a ++ (split_go sep 0 rest).1, (split_go sep 0 rest).2).
Proof.
  induction a as [|c a IH]; intros H.
  - cbn. destruct (split_go sep 0 rest); reflexivity.
  - destruct H as [H1 H2]. cbn [app split_go]. cbn [app] in H1. rewrite H1.
    rewrite (IH H2). reflexivity.
Qed.

Lemma split_go_sep c sep s :
  split_go (c :: sep) 0 ((c :: sep) ++ s) =
    ([], (split_go (c :: sep) 0 s).1 :: (split_go (c :: sep) 0 s).2).
Proof.
  cbn [app split_go].
  change (c :: sep ++ s) with ((c :: sep) ++ s). rewrite startsWith_app.
  replace (length (c :: sep) - 1)%nat with (length sep) by (cbn [length]; lia).
  rewrite split_go_skip. destruct (split_go (c :: sep) 0 s); reflexivity.
Qed.

(** The first piece of a split ends at the first occurrence of the
    separator. *)
Lemma split_first sep a s :
  sep <> [] -> nowhere (startsWith sep) a (sep ++ s) ->
  split sep (a ++ sep ++ s) = a :: split sep s.
Proof.
  intros Hs H. destruct sep as [|c sep]; [congruence|].
  unfold split. rewrite (split_go_nowhere _ _ _ H), split_go_sep.
  cbn [fst snd]. rewrite app_nil_r.
  destruct (split_go (c :: sep) 0 s); reflexivity.
Qed.

Lemma split_none sep s :
  sep <> [] -> includes sep s = false -> split sep s = [s].
Proof.
  intros Hs H. destruct sep as [|c sep]; [congruence|].
  unfold split. rewrite <- (app_nil_r s) at 1.
  rewrite (split_go_nowhere _ _ _ (includes_false_nowhere _ _ H)).
  cbn. rewrite app_nil_r. reflexivity.
Qed.

Lemma split_second sep s :
  sep <> [] -> includes sep s = true -> exists b, split sep s !! 1%nat = Some b.
Proof.
  intros Hs. destruct sep as [|c sep]; [congruence|]. clear Hs.
  unfold split. induction s as [|b s IH]; intros H; [discriminate|].
  cbn [split_go]. destruct (startsWith (c :: sep) (b :: s)) eqn:E.
  - destruct (split_go (c :: sep) (length (c :: sep) - 1) s). cbn. eauto.
  - cbn in H. cbn in E. rewrite E in H. cbn in H. specialize (IH H).
    destruct (split_go (c :: sep) 0 s). exact IH.
Qed.

Lemma regex_search_hit {A} (at_ : jsstring -> option A) s r :
  at_ s = Some r -> regex_search at_ s = Some r.
Proof. intros H. destruct s; cbn; rewrite H; reflexivity. Qed.

Lemma regex_search_skip {A} (at_ : jsstring -> option A) p a rest :
  (forall s, startsWith p s = false -> at_ s = None) ->
  nowhere (startsWith p) a rest ->
  regex_search at_ (a ++ rest) = regex_search at_ rest.
Proof.
  intros Hat. induction a as [|c a IH]; intros H; [reflexivity|].
  destruct H as [H1 H2]. cbn [app regex_search]. cbn [app] in H1.
  rewrite (Hat _ H1). apply IH, H2.
Qed.

Lemma regex_search_none {A} (at_ : jsstring -> option A) p s :
  (forall s, startsWith p s = false -> at_ s = None) ->
  p <> [] -> includes p s = false -> regex_search at_ s = None.
Proof.
  intros Hat Hp H. rewrite <- (app_nil_r s).
  rewrite (regex_search_skip at_ p); [| exact Hat | apply includes_false_nowhere, H].
  cbn. rewrite Hat; [reflexivity|]. destruct p; [congruence|reflexivity].
Qed.

Lemma takeWhile_stop f x d rest :
  Forall (fun c => f c = true) x -> f d = false -> takeWhile f (x ++ d :: rest) = x.
Proof.
  intros Hx Hd. induction Hx as [|c x Hc _ IH]; cbn.
  - rewrite Hd. reflexivity.
  - rewrite Hc, IH. reflexivity.
Qed.

Lemma quoted_at_miss key s :
  startsWith (key ++ [dquote]) s = false -> quoted_at key s = None.
Proof. intros H. unfold quoted_at. rewrite H. reflexivity. Qed.

Lemma line_at_miss key s : startsWith key s = false -> line_at key s = None.
Proof. intros H. unfold line_at. rewrite H. reflexivity. Qed.

Lemma not_in_neqb d x :
  ~ In d x -> Forall (fun c => negb (c =? d) = true) x.
Proof.
  intros H. apply List.Forall_forall. intros c Hc.
  destruct (N.eqb_spec c d) as [->|]; [contradiction|reflexivity].
Qed.

Lemma quoted_at_hit key x rest :
  x <> [] -> ~ In dquote x ->
  quoted_at key (key ++ dquote :: x ++ dquote :: rest) = Some x.
Proof.
  intros Hne Hq. unfold quoted_at.
  change (key ++ dquote :: x ++ dquote :: rest)
    with (key ++ [dquote] ++ x ++ dquote :: rest).
  rewrite app_assoc, startsWith_app. cbv zeta.
  replace (length key + 1)%nat with (length (key ++ [dquote]))
    by (rewrite length_app; reflexivity).
  rewrite drop_app_length.
  rewrite (takeWhile_stop _ x dquote rest (not_in_neqb _ _ Hq) eq_refl).
  destruct x as [|c x']; [congruence|].
  rewrite drop_app_length. reflexivity.
Qed.

Lemma line_at_hit key x rest :
  x <> [] -> ~ In CR x -> ~ In LF x ->
  line_at key (key ++ x ++ CR :: rest) = Some x.
Proof.
  intros Hne Hc Hl. unfold line_at.
  rewrite startsWith_app, drop_app_length.
  rewrite (takeWhile_stop _ x CR rest); [destruct x; [congruence|reflexivity]| |reflexivity].
  apply List.Forall_forall. intros c Hin.
  destruct (N.eqb_spec c CR) as [->|]; [contradiction|].
  destruct (N.eqb_spec c LF) as [->|]; [contradiction|reflexivity].
Qed.

End Strings.

(** ** The embedding on small inputs *)

Example split_does_not_overlap : split (lit "aa") (lit "aaa") = [[]; lit "a"].
Proof. reflexivity. Qed.

Example split_keeps_empty_pieces :
  split (lit ",") (lit "a,,b,") = [lit "a"; []; lit "b"; []].
Proof. reflexivity. Qed.

Example quoted_pattern_takes_first_match :
  regex_search (quoted_at (lit "name="))
    (lit "x name=" ++ [dquote; dquote] ++ lit " name=" ++ [dquote] ++ lit "ab" ++ [dquote])
  = Some (lit "ab").
Proof. reflexivity. Qed.

Example toString_two_and_three_bytes :
  Buffer.toString [xc3; xa9; xe2; x82; xac] = [0xE9; 0x20AC].
Proof. reflexivity. Qed.

Example toString_replaces_ill_formed :
  Buffer.toString [xff; xc3; x28] = [0xFFFD; 0xFFFD; 0x28].
Proof. reflexivity. Qed.

Example binary_keeps_low_byte : Buffer.from_binary [0x20AC; 0x41] = [xac; x41].
Proof. reflexivity. Qed.

Example toBase64_padding :
  Buffer.toBase64 (Buffer.from_utf8 (lit "fooba")) = lit "Zm9vYmE=".
Proof. reflexivity. Qed.

Example getBasicAuth_sample :
  getBasicAuth (Some (lit "user")) (Some (lit "pass")) = lit "Basic dXNlcjpwYXNz".
Proof. reflexivity. Qed.

Example getBasicAuth_unset :
  getBasicAuth None None = lit "Basic dW5kZWZpbmVkOnVuZGVmaW5lZA==".
Proof. reflexivity. Qed.

Example sample_is_decoded :
  parseMultipartForm ex_req =
    Resolved {| fields := <[lit "organizationType" := lit "school"]>
                            (<[lit "email" := lit "a@b.c"]>
                               (<[lit "companyName" := lit "Acme"]> ∅));
                file := Some {| name := lit "d.pdf";
                                data := Buffer.from_utf8 (lit "hello" ++ CRLF);
                                contentType := lit "application/pdf" |} |}.
Proof. vm_compute. reflexivity. Qed.

Example sample_is_submitted :
  response (handler ex_env ex_world ex_req) =
    Some {| status := 200; headers := cors_headers;
            body := BodyJson (JObj [prop "success" (JBool true);
                                    prop "ticketId" (JNum 42);
                                    prop "message" (jstr "Form submitted successfully");
                                    prop "attachmentUrl" (jstr "https://cdn.test/d.pdf")]) |}.
Proof. vm_compute. reflexivity. Qed.

(** ** Bytes and text *)

Section Ascii.

Lemma toString_ascii (bs : Bytes) :
  Forall (fun b => Byte.to_N b < 128) bs ->
  Buffer.toString bs = List.map Byte.to_N bs.
Proof.
  unfold Buffer.toString. induction 1 as [|b bs Hb _ IH]; [reflexivity|].
  cbn [Buffer.utf8_decode Buffer.utf8_step List.map]. unfold Buffer.utf8_lead.
  destruct (N.leb_spec (Byte.to_N b) 127) as [_|Hgt]; [|lia].
  cbn [app]. rewrite IH. reflexivity.
Qed.

Lemma byte_of_to_N (b : byte) : Buffer.byte_of_N (Byte.to_N b) = b.
Proof.
  unfold Buffer.byte_of_N.
  rewrite N.mod_small by (pose proof (Byte.to_N_bounded b); lia).
  rewrite Byte.of_to_N. reflexivity.
Qed.

Lemma from_binary_to_N (bs : Bytes) :
  Buffer.from_binary (List.map Byte.to_N bs) = bs.
Proof.
  unfold Buffer.from_binary. induction bs as [|b bs IH]; [reflexivity|].
  cbn [List.map]. rewrite byte_of_to_N, IH. reflexivity.
Qed.

End Ascii.

(** ** The decoder on the parts of a well-formed body *)

Section WellFormedParts.

Implicit Types (n v filename ctype content B : jsstring) (st : DecodedForm).

Ltac concrete := vm_compute; repeat split.

(** Regroup the text under a search as [t], equal to it up to the
    associativity of concatenation. *)
Ltac regroup t :=
  match goal with
  | |- context [regex_search _ ?s] =>
      replace s with t by (rewrite <- ?app_assoc; reflexivity)
  end.

Lemma field_text_eq n v :
  part_text (Field n v) =
    (CRLF ++ lit "Content-Disposition: form-data; name=" ++ [dquote])
    ++ n ++ [dquote] ++ CRLFCRLF ++ v ++ CRLF.
Proof. unfold part_text, disposition. rewrite <- !app_assoc. reflexivity. Qed.

Lemma file_text_eq n filename ctype content :
  part_text (File n filename ctype content) =
    (CRLF ++ lit "Content-Disposition: form-data; name=" ++ [dquote])
    ++ n ++ ([dquote] ++ lit "; filename=" ++ [dquote])
    ++ filename ++ ([dquote] ++ CRLF ++ lit "Content-Type: ")
    ++ ctype ++ CRLFCRLF ++ content ++ CRLF.
Proof. unfold part_text, disposition. rewrite <- !app_assoc. reflexivity. Qed.

Lemma field_has_token n v :
  includes s_Content_Disposition (part_text (Field n v)) = true.
Proof. reflexivity. Qed.

Lemma file_has_token n filename ctype content :
  includes s_Content_Disposition (part_text (File n filename ctype content)) = true.
Proof. reflexivity. Qed.

Lemma field_match_name n v :
  n <> [] -> ~ In dquote n -> match_name (part_text (Field n v)) = Some n.
Proof.
  intros Hne Hq. unfold match_name.
  replace (part_text (Field n v))
    with ((CRLF ++ lit "Content-Disposition: form-data; ")
          ++ (lit "name=" ++ dquote :: n ++ dquote :: CRLFCRLF ++ v ++ CRLF))
    by (rewrite field_text_eq, <- !app_assoc; reflexivity).
  rewrite (regex_search_skip _ (lit "name=" ++ [dquote]));
    [|intros s; apply quoted_at_miss|concrete].
  apply regex_search_hit, quoted_at_hit; assumption.
Qed.

Lemma field_match_filename n v :
  ~ In dquote n -> includes (lit "filename=") n = false ->
  ~ In CR v -> includes (lit "filename=" ++ [dquote]) v = false ->
  match_filename (part_text (Field n v)) = None.
Proof.
  intros Hq Hn Hc Hv. unfold match_filename. rewrite field_text_eq.
  assert (Hmiss : forall s, startsWith (lit "filename=" ++ [dquote]) s = false ->
                            quoted_at (lit "filename=") s = None)
    by (intros s; apply quoted_at_miss).
  rewrite (regex_search_skip _ _ _ _ Hmiss); [|concrete].
  rewrite (regex_search_skip _ _ _ _ Hmiss);
    [|apply nowhere_aligned; [concrete; intuition discriminate|exact Hq|exact Hn]].
  rewrite app_assoc.
  rewrite (regex_search_skip _ _ _ _ Hmiss); [|concrete].
  rewrite (regex_search_skip _ _ _ _ Hmiss);
    [|apply nowhere_stop; [concrete; intuition discriminate|exact Hv]].
  reflexivity.
Qed.

Lemma field_value_eq n v :
  ~ In CR n -> ~ In CR v -> field_value (part_text (Field n v)) = Some v.
Proof.
  intros Hn Hv. unfold field_value.
  replace (part_text (Field n v))
    with (((CRLF ++ lit "Content-Disposition: form-data; name=" ++ [dquote])
           ++ n ++ [dquote]) ++ CRLFCRLF ++ (v ++ CRLF))
    by (rewrite field_text_eq, <- !app_assoc; reflexivity).
  rewrite split_first; [|discriminate|].
  - rewrite (split_none CRLFCRLF (v ++ CRLF)); [|discriminate|].
    + cbn [lookup list_lookup].
      rewrite <- (app_nil_r CRLF) at 2.
      rewrite split_first; [reflexivity|discriminate|apply nowhere_head, Hv].
    + rewrite includes_skip by (apply nowhere_head, Hv). reflexivity.
  - apply nowhere_app; [concrete|].
    apply nowhere_app; [apply nowhere_head, Hn|concrete].
Qed.

Lemma parse_field_part st n v :
  field_ok n v ->
  parse_part st (part_text (Field n v)) = Ok (put_part st (Field n v)).
Proof.
  intros (Hne & Hq & Hc & Hf & Hp & Hv & Hvc & Hvf).
  unfold parse_part.
  rewrite field_has_token, field_match_filename, field_match_name, field_value_eq
    by assumption.
  destruct v as [|c v]; [congruence|].
  unfold set_field. rewrite decide_False by exact Hp. reflexivity.
Qed.

Lemma file_match_filename n filename ctype content :
  ~ In dquote n -> includes (lit "filename=") n = false ->
  filename <> [] -> ~ In dquote filename ->
  match_filename (part_text (File n filename ctype content)) = Some filename.
Proof.
  intros Hq Hn Hne Hfq. unfold match_filename. rewrite file_text_eq.
  assert (Hmiss : forall s, startsWith (lit "filename=" ++ [dquote]) s = false ->
                            quoted_at (lit "filename=") s = None)
    by (intros s; apply quoted_at_miss).
  rewrite (regex_search_skip _ _ _ _ Hmiss); [|concrete].
  rewrite (regex_search_skip _ _ _ _ Hmiss);
    [|apply nowhere_aligned; [concrete; intuition discriminate|exact Hq|exact Hn]].
  regroup (([dquote] ++ lit "; ")
           ++ (lit "filename=" ++ dquote :: filename ++ dquote ::
               (CRLF ++ lit "Content-Type: " ++ ctype ++ CRLFCRLF ++ content ++ CRLF))).
  rewrite (regex_search_skip _ _ _ _ Hmiss); [|concrete].
  apply regex_search_hit.
  apply (quoted_at_hit (lit "filename=") filename); assumption.
Qed.

Lemma file_match_contentType n filename ctype content :
  ~ In dquote n -> includes (lit "Content-Type: ") n = false ->
  ~ In dquote filename -> includes (lit "Content-Type: ") filename = false ->
  ctype <> [] -> ~ In CR ctype -> ~ In LF ctype ->
  match_contentType (part_text (File n filename ctype content)) = Some ctype.
Proof.
  intros Hq Hn Hfq Hf Hne Hc Hl. unfold match_contentType. rewrite file_text_eq.
  assert (Hmiss : forall s, startsWith (lit "Content-Type: ") s = false ->
                            line_at (lit "Content-Type: ") s = None)
    by (intros s; apply line_at_miss).
  rewrite (regex_search_skip _ _ _ _ Hmiss); [|concrete].
  rewrite (regex_search_skip _ _ _ _ Hmiss);
    [|apply nowhere_stop; [concrete; intuition discriminate|exact Hn]].
  rewrite (regex_search_skip _ _ _ _ Hmiss); [|concrete].
  regroup (filename ++ dquote ::
           (CRLF ++ lit "Content-Type: " ++ ctype ++ CRLFCRLF ++ content ++ CRLF)).
  rewrite (regex_search_skip _ _ _ _ Hmiss);
    [|apply nowhere_stop; [concrete; intuition discriminate|exact Hf]].
  regroup ((dquote :: CRLF)
           ++ (lit "Content-Type: " ++ ctype ++ CR :: (LF :: CRLF ++ content ++ CRLF))).
  rewrite (regex_search_skip _ _ _ _ Hmiss); [|concrete].
  apply regex_search_hit.
  apply (line_at_hit (lit "Content-Type: ") ctype); assumption.
Qed.

Lemma split_head sep s : sep <> [] -> exists a, split sep s !! 0%nat = Some a.
Proof.
  intros Hs. destruct sep as [|c sep]; [congruence|].
  unfold split. destruct (split_go (c :: sep) 0 s). cbn. eauto.
Qed.

Lemma includes_app_r p a rest :
  includes p rest = true -> includes p (a ++ rest) = true.
Proof.
  intros H. induction a as [|c a IH]; [exact H|].
  cbn [app]. apply includes_cons, IH.
Qed.

Lemma file_has_separator n filename ctype content :
  includes CRLFCRLF (part_text (File n filename ctype content)) = true.
Proof.
  rewrite file_text_eq.
  do 6 apply includes_app_r. apply startsWith_includes, startsWith_app.
Qed.

Lemma parse_file_part st n filename ctype content :
  file_ok n filename ctype ->
  parse_part st (part_text (File n filename ctype content))
  = Ok (put_part st (File n filename ctype content)).
Proof.
  intros (Hq & Hn & Hnt & Hne & Hfq & Hft & Hce & Hcc & Hcl).
  unfold parse_part, put_part, decoded_payload.
  rewrite file_has_token, file_match_filename by assumption.
  unfold file_of_part.
  rewrite file_match_contentType by assumption.
  destruct (split_second CRLFCRLF (part_text (File n filename ctype content)))
    as [fc ->]; [discriminate|apply file_has_separator|].
  destruct (split_head (CRLF ++ lit "--") fc) as [payload ->]; [discriminate|].
  reflexivity.
Qed.

Lemma parse_well_formed_part B st p :
  part_ok B p -> parse_part st (part_text p) = Ok (put_part st p).
Proof.
  intros [_ H]. destruct p; [apply parse_field_part|apply parse_file_part]; exact H.
Qed.

End WellFormedParts.

(** ** The loop over the parts, and the stream *)

Section Decoder.

Implicit Types (st : DecodedForm) (parts : list jsstring).

Lemma forEach_app st l1 l2 :
  forEach st (l1 ++ l2) =
    match forEach st l1 with
    | Ok st' => forEach st' l2
    | Err e => Err e
    end.
Proof.
  revert st. induction l1 as [|p l1 IH]; intros st; [reflexivity|].
  cbn. destruct (parse_part st p); [apply IH|reflexivity].
Qed.

Lemma parse_part_no_token st part :
  includes s_Content_Disposition part = false -> parse_part st part = Ok st.
Proof. intros H. unfold parse_part. rewrite H. reflexivity. Qed.

Lemma forEach_well_formed B st (ps : list Part) :
  Forall (part_ok B) ps ->
  forEach st (List.map part_text ps) = Ok (fold_left put_part ps st).
Proof.
  intros H. revert st. induction H as [|p ps Hp _ IH]; intros st; [reflexivity|].
  cbn. rewrite (parse_well_formed_part B st p Hp). apply IH.
Qed.

Lemma listen_completes ct acc evs :
  completes evs = true ->
  listen ct acc evs =
    match on_end ct (acc ++ received evs) with
    | Ok form => Resolved form
    | Err e => Rejected e
    end.
Proof.
  revert acc. induction evs as [|ev evs IH]; intros acc H; [discriminate|].
  destruct ev as [chunk| |e]; cbn in *.
  - rewrite (IH _ H), <- app_assoc. reflexivity.
  - rewrite app_nil_r. reflexivity.
  - discriminate.
Qed.

Lemma listen_resolved ct acc evs form :
  listen ct acc evs = Resolved form ->
  completes evs = true /\ on_end ct (acc ++ received evs) = Ok form.
Proof.
  revert acc. induction evs as [|ev evs IH]; intros acc H; [discriminate|].
  destruct ev as [chunk| |e]; cbn in *.
  - destruct (IH _ H) as [Hc Ho]. rewrite <- app_assoc in Ho. auto.
  - rewrite app_nil_r. destruct (on_end ct acc); [|discriminate].
    injection H as ->. auto.
  - discriminate.
Qed.

Lemma parse_completes (req : Request) :
  completes (stream req) = true ->
  parseMultipartForm req =
    match on_end (content_type req) (received (stream req)) with
    | Ok form => Resolved form
    | Err e => Rejected e
    end.
Proof. intros H. unfold parseMultipartForm. rewrite (listen_completes _ _ _ H). reflexivity. Qed.

Lemma parse_resolved (req : Request) (form : DecodedForm) :
  parseMultipartForm req = Resolved form ->
  exists header,
    content_type req = Some header
    /\ forEach {| fields := ∅; file := None |} (parts_of header (body_of req)) = Ok form.
Proof.
  intros H. apply listen_resolved in H as [_ H]. cbn in H.
  unfold on_end in H. destruct (content_type req) as [header|]; [|discriminate].
  exists header. split; [reflexivity|exact H].
Qed.

End Decoder.

(** ** The decoder on a well-formed body *)

Section WellFormedBody.

Variable B : jsstring.
Hypothesis HB : boundary_ok B.

Let sep : jsstring := lit "--" ++ B.
Let closing : jsstring := lit "--" ++ CRLF.

Lemma boundary_of_header : boundary_of (multipart_header B) = Some B.
Proof.
  destruct HB as (_ & _ & _ & Hb). unfold boundary_of.
  change (multipart_header B)
    with (lit "multipart/form-data; " ++ lit "boundary=" ++ B).
  rewrite split_first; [|discriminate|vm_compute; repeat split].
  rewrite (split_none _ B); [reflexivity|discriminate|exact Hb].
Qed.

Lemma delimiter_of_header : delimiter (multipart_header B) = sep.
Proof. unfold delimiter. rewrite boundary_of_header. reflexivity. Qed.

Lemma LF_not_in_sep : ~ In LF sep.
Proof.
  destruct HB as (_ & _ & Hl & _). subst sep. cbn.
  intros [H|[H|H]]; [discriminate|discriminate|exact (Hl H)].
Qed.

Lemma closing_has_no_delimiter : includes sep closing = false.
Proof.
  destruct HB as (Hne & Hc & _ & _). subst sep closing.
  destruct B as [|b B']; [congruence|].
  assert (Hb : (b =? CR) = false).
  { apply N.eqb_neq. intros ->. apply Hc. left. reflexivity. }
  cbn -[N.eqb]. rewrite Hb. reflexivity.
Qed.

Lemma closing_has_no_token : includes s_Content_Disposition closing = false.
Proof. reflexivity. Qed.

Lemma part_text_ends_LF (p : Part) : exists x, part_text p = x ++ [LF].
Proof.
  destruct p as [n v|n filename ctype content]; cbn [part_text].
  - exists (CRLF ++ disposition n ++ CRLFCRLF ++ v ++ [CR]).
    rewrite <- !app_assoc. reflexivity.
  - exists (CRLF ++ disposition n ++ lit "; filename=" ++ [dquote] ++ filename ++ [dquote]
            ++ CRLF ++ lit "Content-Type: " ++ ctype ++ CRLFCRLF ++ content ++ [CR]).
    rewrite <- !app_assoc. reflexivity.
Qed.

Lemma part_text_closed (p : Part) (rest : jsstring) :
  part_ok B p -> nowhere (startsWith sep) (part_text p) rest.
Proof.
  intros [Hp _]. destruct (part_text_ends_LF p) as [x Hx]. rewrite Hx in *.
  apply nowhere_closed; [apply LF_not_in_sep|exact Hp].
Qed.

Lemma split_body_from (a : jsstring) (ps : list Part) :
  (forall rest, nowhere (startsWith sep) a rest) ->
  Forall (part_ok B) ps ->
  split sep (a ++ multipart_text B ps) = a :: List.map part_text ps ++ [closing].
Proof.
  intros Ha Hps. revert a Ha. induction Hps as [|p ps Hp _ IH]; intros a Ha.
  - unfold multipart_text. cbn [flat_map app].
    change (lit "--" ++ B ++ lit "--" ++ CRLF) with (sep ++ closing).
    rewrite split_first; [|discriminate|apply Ha].
    rewrite split_none; [reflexivity|discriminate|apply closing_has_no_delimiter].
  - replace (a ++ multipart_text B (p :: ps))
      with (a ++ sep ++ (part_text p ++ multipart_text B ps))
      by (unfold multipart_text; cbn [flat_map]; subst sep; rewrite <- !app_assoc; reflexivity).
    rewrite split_first; [|discriminate|apply Ha].
    rewrite IH; [reflexivity|]. intros rest. apply part_text_closed, Hp.
Qed.

Lemma split_body (ps : list Part) :
  Forall (part_ok B) ps ->
  split sep (multipart_text B ps) = [] :: List.map part_text ps ++ [closing].
Proof. intros H. apply (split_body_from [] ps); [intros rest; exact I|exact H]. Qed.

(** The decoder on a well-formed body applies the intended effect of each
    part, in order. *)
Lemma decode_well_formed (chunks : list Bytes) (ps : list Part) :
  Buffer.toString (Buffer.concat chunks) = multipart_text B ps ->
  Forall (part_ok B) ps ->
  on_end (Some (multipart_header B)) chunks
  = Ok (fold_left put_part ps {| fields := ∅; file := None |}).
Proof.
  intros Ht Hps. unfold on_end, parts_of.
  rewrite delimiter_of_header, Ht, (split_body ps Hps).
  cbn [forEach]. rewrite parse_part_no_token by reflexivity.
  rewrite forEach_app, (forEach_well_formed B _ ps Hps).
  cbn [forEach]. rewrite parse_part_no_token by apply closing_has_no_token.
  reflexivity.
Qed.

End WellFormedBody.

(** ** The intended effect of a list of parts *)

Section PutParts.

Implicit Types (st : DecodedForm) (ps : list Part).

Lemma put_parts_other st ps (n : jsstring) :
  ~ In n (field_names ps) ->
  fields (fold_left put_part ps st) !! n = fields st !! n.
Proof.
  revert st. induction ps as [|p ps IH]; intros st Hn; [reflexivity|].
  cbn [fold_left]. destruct p as [m v|m filename ctype content]; cbn in Hn.
  - rewrite IH by tauto. cbn. apply lookup_insert_ne. intros ->. tauto.
  - rewrite IH by exact Hn. reflexivity.
Qed.

Lemma put_parts_field st ps (n v : jsstring) :
  List.NoDup (field_names ps) -> In (Field n v) ps ->
  fields (fold_left put_part ps st) !! n = Some v.
Proof.
  revert st. induction ps as [|p ps IH]; intros st Hnd Hin; [destruct Hin|].
  cbn [fold_left]. destruct Hin as [->|Hin].
  - cbn in Hnd. apply List.NoDup_cons_iff in Hnd as [Hn _].
    rewrite put_parts_other by exact Hn. cbn. apply lookup_insert_eq.
  - apply IH; [|exact Hin].
    destruct p; cbn in Hnd; [apply List.NoDup_cons_iff in Hnd; tauto|exact Hnd].
Qed.

Lemma put_parts_no_file st ps :
  files_of ps = [] -> file (fold_left put_part ps st) = file st.
Proof.
  revert st. induction ps as [|p ps IH]; intros st H; [reflexivity|].
  destruct p; cbn in H; [|discriminate]. cbn [fold_left]. rewrite IH by exact H.
  reflexivity.
Qed.

Lemma put_parts_one_file st ps (n filename ctype content : jsstring) :
  files_of ps = [File n filename ctype content] ->
  file (fold_left put_part ps st)
  = Some {| name := filename;
            data := decoded_payload (part_text (File n filename ctype content));
            contentType := ctype |}.
Proof.
  revert st. induction ps as [|p ps IH]; intros st H; [discriminate|].
  destruct p; cbn in H; cbn [fold_left].
  - apply IH, H.
  - injection H as -> -> -> -> H. rewrite put_parts_no_file by exact H. reflexivity.
Qed.

End PutParts.

(** ** The loop: files, falsy values, exceptions *)

Section Loop.

Implicit Types (st : DecodedForm) (part n : jsstring).



Lemma set_field_other (m v n : jsstring) (fs : gmap jsstring jsstring) :
  m <> n -> set_field m v fs !! n = fs !! n.
Proof.
  intros Hne. unfold set_field. destruct (decide (m = lit "__proto__")); [reflexivity|].
  apply lookup_insert_ne, Hne.
Qed.

Lemma set_field_lookup (m v n w : jsstring) (fs : gmap jsstring jsstring) :
  set_field m v fs !! n = Some w -> w = v \/ fs !! n = Some w.
Proof.
  unfold set_field. destruct (decide (m = lit "__proto__")); [auto|].
  destruct (decide (m = n)) as [->|Hne].
  - rewrite lookup_insert_eq. intros [= ->]. auto.
  - rewrite lookup_insert_ne by exact Hne. auto.
Qed.

(** A text field part with a falsy value leaves the form as it is. *)
Lemma parse_part_falsy st part n :
  is_field_part n part -> falsy (field_value part) -> parse_part st part = Ok st.
Proof.
  intros (Ht & Hf & Hn) Hv. unfold parse_part. rewrite Ht, Hf, Hn.
  destruct Hv as [-> | ->]; reflexivity.
Qed.

Lemma parse_part_absent st st' part n :
  (is_field_part n part -> falsy (field_value part)) ->
  parse_part st part = Ok st' ->
  fields st !! n = None -> fields st' !! n = None.
Proof.
  intros Hv H Hn. unfold parse_part in H.
  destruct (includes s_Content_Disposition part) eqn:Ht; [|injection H as <-; exact Hn].
  destruct (match_filename part) eqn:Hf.
  { destruct (file_of_part l part); [|discriminate]. injection H as <-. exact Hn. }
  destruct (match_name part) as [m|] eqn:Hm; [|injection H as <-; exact Hn].
  destruct (field_value part) as [[|c v]|] eqn:Hval; try (injection H as <-; exact Hn).
  injection H as <-. cbn. destruct (decide (m = n)) as [->|Hne].
  - destruct Hv as [Hv|Hv]; [repeat split; assumption|discriminate|discriminate].
  - rewrite set_field_other by exact Hne. exact Hn.
Qed.

Lemma forEach_absent st st' (l : list jsstring) n :
  (forall part, In part l -> is_field_part n part -> falsy (field_value part)) ->
  forEach st l = Ok st' ->
  fields st !! n = None -> fields st' !! n = None.
Proof.
  revert st. induction l as [|p l IH]; intros st Hl H Hn.
  - injection H as <-. exact Hn.
  - cbn in H. destruct (parse_part st p) as [st1|] eqn:E; [|discriminate].
    apply (IH st1); [intros part Hin; apply Hl; right; exact Hin|exact H|].
    apply (parse_part_absent st st1 p n); [apply Hl; left; reflexivity|exact E|exact Hn].
Qed.

Lemma parse_part_nonempty st st' part :
  parse_part st part = Ok st' ->
  (forall m, fields st !! m <> Some []) -> forall m, fields st' !! m <> Some [].
Proof.
  intros H Hst m. unfold parse_part in H.
  destruct (includes s_Content_Disposition part); [|injection H as <-; apply Hst].
  destruct (match_filename part).
  { destruct (file_of_part l part); [|discriminate]. injection H as <-. apply Hst. }
  destruct (match_name part) as [k|]; [|injection H as <-; apply Hst].
  destruct (field_value part) as [[|c v]|]; try (injection H as <-; apply Hst).
  injection H as <-. cbn. intros Hm.
  apply set_field_lookup in Hm as [Hm|Hm]; [discriminate|exact (Hst m Hm)].
Qed.

Lemma forEach_nonempty st st' (l : list jsstring) :
  forEach st l = Ok st' ->
  (forall m, fields st !! m <> Some []) -> forall m, fields st' !! m <> Some [].
Proof.
  revert st. induction l as [|p l IH]; intros st H Hst.
  - injection H as <-. exact Hst.
  - cbn in H. destruct (parse_part st p) as [st1|] eqn:E; [|discriminate].
    apply (IH st1 H). apply (parse_part_nonempty st st1 p E Hst).
Qed.

(** The only exception of the callback is the read of [split] on the
    missing second piece. *)
Lemma parse_part_error st part e :
  parse_part st part = Err e -> e = TypeError_read "undefined" "split".
Proof.
  unfold parse_part, file_of_part. intros H.
  destruct (includes s_Content_Disposition part); [|discriminate].
  destruct (match_filename part).
  - destruct (split CRLFCRLF part !! 1%nat) as [fc|]; [|injection H as <-; reflexivity].
    destruct (split_head (CRLF ++ lit "--") fc) as [payload Hp]; [discriminate|].
    rewrite Hp in H. discriminate.
  - destruct (match_name part); [|discriminate].
    destruct (field_value part) as [[|c v]|]; discriminate.
Qed.

Lemma forEach_error st (l : list jsstring) e :
  forEach st l = Err e -> e = TypeError_read "undefined" "split".
Proof.
  revert st. induction l as [|p l IH]; intros st H; [discriminate|].
  cbn in H. destruct (parse_part st p) as [st1|e1] eqn:E.
  - apply (IH st1 H).
  - injection H as <-. apply (parse_part_error st p e1 E).
Qed.

Lemma parse_part_no_separator st part :
  is_file_part part = true -> includes CRLFCRLF part = false ->
  exists e, parse_part st part = Err e.
Proof.
  unfold is_file_part, parse_part, file_of_part. intros Hf Hs.
  apply andb_true_iff in Hf as [Ht Hf]. rewrite Ht.
  destruct (match_filename part); [|discriminate].
  rewrite (split_none CRLFCRLF part) by (discriminate || exact Hs).
  cbn. eauto.
Qed.

Lemma forEach_throws st (l : list jsstring) part :
  In part l -> (forall st1, exists e, parse_part st1 part = Err e) ->
  exists e, forEach st l = Err e.
Proof.
  intros Hin Hp. revert st. induction l as [|p l IH]; intros st; [destruct Hin|].
  cbn. destruct Hin as [->|Hin].
  - destruct (Hp st) as [e ->]. eauto.
  - destruct (parse_part st p) as [st1|e]; [apply (IH Hin)|eauto].
Qed.

(** A request without [Content-Type] header, once its body has arrived,
    and a stream that fails before its end: both reject. *)
Lemma missing_header_rejects (req : Request) :
  content_type req = None -> completes (stream req) = true ->
  parseMultipartForm req = Rejected (TypeError_read "undefined" "split").
Proof. intros Hct Hc. rewrite (parse_completes _ Hc), Hct. reflexivity. Qed.

Lemma stream_error_rejects (req : Request) (chunks : list Bytes) (e : JsError)
    (rest : list StreamEvent) :
  stream req = List.map EvData chunks ++ EvError e :: rest ->
  parseMultipartForm req = Rejected e.
Proof.
  intros Hs. unfold parseMultipartForm. rewrite Hs. clear Hs.
  generalize (@nil Bytes).
  induction chunks as [|c chunks IH]; intros acc; cbn; [reflexivity|apply IH].
Qed.

End Loop.

(** ** Handler: method gate, preflight and error paths *)

Section Handler.

Variable env : Env.
Variable world : World.

Lemma handler_not_post (req : Request) :
  method req <> lit "POST" ->
  handler env world req = {| trace := []; response := Some method_not_allowed |}.
Proof.
  intros Hm. unfold handler.
  rewrite (bool_decide_eq_false_2 _ Hm). reflexivity.
Qed.

Lemma handler_post (req : Request) :
  method req = lit "POST" ->
  handler env world req =
    match parseMultipartForm req with
    | Pending => {| trace := []; response := None |}
    | Rejected e => catch_block cors_headers [] e
    | Resolved form => submit env world cors_headers form
    end.
Proof.
  intros Hm. unfold handler.
  rewrite (bool_decide_eq_true_2 _ Hm). cbn [negb].
  rewrite bool_decide_eq_false_2; [reflexivity|].
  rewrite Hm. discriminate.
Qed.

(** C1. The preflight branch is never reached: a request with method
    OPTIONS is answered by the method gate, with status 405, the JSON body
    of the gate and no header at all, hence none of the three CORS
    headers; nothing is parsed and nothing is logged. *)
Theorem options_answered_by_method_gate (req : Request) :
  method req = lit "OPTIONS" ->
  handler env world req = {| trace := []; response := Some method_not_allowed |}
  /\ status method_not_allowed = 405%Z
  /\ headers method_not_allowed = [].
Proof.
  intros Hm. split; [|split; reflexivity].
  apply handler_not_post. rewrite Hm. discriminate.
Qed.

(** C9. Every request whose method is not POST gets the 405 response of the
    method gate, which is sent before any header is set: the response has
    no header, so none of the three CORS headers, and the run has no other
    effect. *)
Theorem non_post_405_without_cors (req : Request) :
  method req <> lit "POST" ->
  exists r,
    handler env world req = {| trace := []; response := Some r |}
    /\ status r = 405%Z
    /\ body r = BodyJson (JObj [prop "error" (jstr "Method not allowed")])
    /\ headers r = []
    /\ (forall h, In h cors_headers -> ~ In h (headers r)).
Proof.
  intros Hm. exists method_not_allowed.
  split; [apply handler_not_post; exact Hm|].
  repeat split. intros h _ [].
Qed.

(** C3. A POST request whose body decodes to a form without a file is
    answered with status 400 and the body [{ error: 'No file uploaded' }];
    the run contains no upstream call, neither upload nor ticket. *)
Theorem no_file_400_no_upstream (req : Request) (form : DecodedForm) :
  method req = lit "POST" ->
  parseMultipartForm req = Resolved form ->
  file form = None ->
  let out := handler env world req in
  response out =
    Some {| status := 400; headers := cors_headers;
            body := BodyJson (JObj [prop "error" (jstr "No file uploaded")]) |}
  /\ Forall (fun e => is_upstream e = false) (trace out).
Proof.
  intros Hm Hp Hf out. subst out.
  rewrite (handler_post _ Hm), Hp. unfold submit. rewrite Hf. cbn [trace response].
  split; [reflexivity|].
  repeat constructor.
Qed.

Lemma axios_post_failed (r : Reply) :
  failed r -> exists e, axios_post r = Err e.
Proof.
  destruct r as [msg|code payload]; cbn; intros Hf; [eauto|].
  destruct ((200 <=? code) && (code <? 300))%Z eqn:E; [|eauto].
  exfalso. apply Hf. apply andb_true_iff in E. lia.
Qed.

Lemma catch_block_status (hs : list (jsstring * jsstring)) (tr : list Event) (e : JsError) :
  response (catch_block hs tr e) =
    Some {| status := 500; headers := hs;
            body := BodyJson (JObj [prop "error" (jstr "Form submission failed");
                                    prop "details" (error_details e)]) |}.
Proof. reflexivity. Qed.

(** C4. A POST request that decodes with a file and whose upload fails (no
    response, or a status outside 2xx) is answered with status 500, and
    the run contains the upload but no call of the ticket endpoint. *)
Theorem upload_failure_500_no_ticket (req : Request) (form : DecodedForm) (f : FileData) :
  method req = lit "POST" ->
  parseMultipartForm req = Resolved form ->
  file form = Some f ->
  failed (upload_reply world (upload_call env f)) ->
  let out := handler env world req in
  (exists details,
      response out =
        Some {| status := 500; headers := cors_headers;
                body := BodyJson (JObj [prop "error" (jstr "Form submission failed");
                                        prop "details" details]) |})
  /\ In (UploadPost (upload_call env f)) (trace out)
  /\ Forall (fun e => is_ticket e = false) (trace out).
Proof.
  intros Hm Hp Hf Hfail out. subst out.
  rewrite (handler_post _ Hm), Hp. unfold submit. rewrite Hf.
  destruct (axios_post_failed _ Hfail) as [e He]. rewrite He.
  split; [eexists; apply catch_block_status|].
  cbn [catch_block trace]. split.
  - rewrite !in_app_iff. left. right. cbn. auto.
  - repeat (apply Forall_app; split); repeat constructor.
Qed.

(** C7 (amended). When the decoding of a POST request throws, the rejection
    reaches the catch-all: the response has status 500 and the body
    [{ error: 'Form submission failed', details }], where [details] is the
    message of the exception when it carries no response; the only effect
    is the [console.error] of the catch block. *)
Theorem parse_rejection_500 (req : Request) (e : JsError) :
  method req = lit "POST" ->
  parseMultipartForm req = Rejected e ->
  let out := handler env world req in
  response out =
    Some {| status := 500; headers := cors_headers;
            body := BodyJson (JObj [prop "error" (jstr "Form submission failed");
                                    prop "details" (error_details e)]) |}
  /\ (err_response e = None -> error_details e = JStr (err_message e))
  /\ Forall (fun ev => is_upstream ev = false) (trace out).
Proof.
  intros Hm Hp out. subst out.
  rewrite (handler_post _ Hm), Hp.
  split; [apply catch_block_status|]. split.
  - intros Hr. unfold error_details, response_data. rewrite Hr. cbn.
    reflexivity.
  - cbn. repeat constructor.
Qed.

Lemma get_defined (v : jsval) (k : string) :
  v <> JUndefined -> v <> JNull -> get v k = Ok (get_opt v k).
Proof. intros Hu Hn. destruct v; try reflexivity; congruence. Qed.

(** C10. The handler does not validate the text fields.  For a POST request
    that decodes to a form with a file and without [companyName], [email],
    [organizationType] and [message]: the upload is posted, with the file's
    data, name and content type in its form; and when the upload resolves
    with data other than [undefined] and [null], the ticket is posted, and
    its body is the object written out below: [undefined] as the customer's
    email and name, as the address of the sender and as second tag, the
    word [undefined] in the subject and in the lines of both message
    bodies, and the default text in place of the message. *)
Theorem no_field_validation (req : Request) (form : DecodedForm) (f : FileData) :
  method req = lit "POST" ->
  parseMultipartForm req = Resolved form ->
  file form = Some f ->
  fields form !! lit "companyName" = None ->
  fields form !! lit "email" = None ->
  fields form !! lit "organizationType" = None ->
  fields form !! lit "message" = None ->
  let out := handler env world req in
  exists u,
    In (UploadPost u) (trace out)
    /\ upload_form u = {| form_field := lit "file"; form_data := data f;
                          form_filename := name f;
                          form_contentType := contentType f |}
    /\ forall uploaded,
         axios_post (upload_reply world u) = Ok uploaded ->
         uploaded <> JUndefined -> uploaded <> JNull ->
         exists t,
           In (TicketPost t) (trace out)
           /\ ticket_body t =
                JObj [
                  (lit "channel", JStr (lit "email"));
                  (lit "via", JStr (lit "api"));
                  (lit "customer",
                   JObj [(lit "email", JUndefined); (lit "name", JUndefined)]);
                  (lit "messages", JArr [
                    JObj [
                      (lit "source", JObj [
                        (lit "type", JStr (lit "email"));
                        (lit "to", JArr [
                          JObj [(lit "address",
                                 match GORGIAS_EMAIL env with
                                 | Some address => JStr address
                                 | None => JUndefined
                                 end)]]);
                        (lit "from", JObj [(lit "address", JUndefined)])]);
                      (lit "body_html", JStr (
                        [LF] ++ lit "      <h3>B2B Form Submission</h3>" ++ [LF]
                        ++ lit "      <p><strong>Company:</strong> undefined</p>" ++ [LF]
                        ++ lit "      <p><strong>Email:</strong> undefined</p>" ++ [LF]
                        ++ lit "      <p><strong>Organization Type:</strong> undefined</p>"
                        ++ [LF]
                        ++ lit "      <p><strong>Message:</strong></p>" ++ [LF]
                        ++ lit "      <p>No message provided</p>" ++ [LF]
                        ++ lit "      <p><strong>Attached Document:</strong> "
                        ++ name f ++ lit "</p>" ++ [LF]
                        ++ lit "    "));
                      (lit "body_text", JStr (
                        [LF] ++ lit "B2B Form Submission" ++ [LF]
                        ++ lit "Company: undefined" ++ [LF]
                        ++ lit "Email: undefined" ++ [LF]
                        ++ lit "Organization Type: undefined" ++ [LF]
                        ++ lit "Message: No message provided" ++ [LF]
                        ++ lit "Attached Document: " ++ name f ++ [LF]
                        ++ lit "    "));
                      (lit "channel", JStr (lit "email"));
                      (lit "from_agent", JBool false);
                      (lit "via", JStr (lit "api"));
                      (lit "attachments", JArr [
                        JObj [(lit "url", get_opt uploaded "url");
                              (lit "name", get_opt uploaded "name");
                              (lit "size", get_opt uploaded "size");
                              (lit "content_type", get_opt uploaded "content_type")]])]]);
                  (lit "subject", JStr (lit "B2B Form Submission - undefined"));
                  (lit "tags", JArr [JStr (lit "b2b-form"); JUndefined])].
Proof.
  intros Hm Hp Hf Hc He Ho Hmsg out. subst out.
  rewrite (handler_post _ Hm), Hp. unfold submit. rewrite Hf, Hc, He, Ho, Hmsg.
  exists (upload_call env f). split; [|split; [reflexivity|]].
  - destruct (axios_post _) as [uploaded|e];
      [destruct (ticket_call _ _ _ _ _ _ _) as [t|e];
       [destruct (axios_post _) as [created|e]; [destruct (get created "id")|]|]|];
      cbn [trace catch_block]; rewrite ?in_app_iff; cbn [In]; intuition auto.
  - intros uploaded Hu Hnu Hnn. rewrite Hu. unfold ticket_call.
    rewrite !(get_defined uploaded) by assumption.
    match goal with |- context [TicketPost ?t] => exists t end.
    split; [|reflexivity].
    destruct (axios_post (ticket_reply _ _)) as [created|e];
      [destruct (get created "id")|];
      cbn [trace catch_block]; rewrite ?in_app_iff; cbn [In]; intuition auto.
Qed.

(** C8 (amended).  A body one of whose parts has the disposition token and
    matches the filename pattern, that is, carries a filename attribute with
    a non-empty quoted value, but contains no empty line makes the decoder
    throw:
    the promise is rejected with the [TypeError] of the read of [split] on
    [undefined], no form is returned, and a POST request is answered with
    status 500. *)
Theorem file_part_without_blank_line_rejects (req : Request) (header part : jsstring) :
  content_type req = Some header ->
  completes (stream req) = true ->
  In part (parts_of header (body_of req)) ->
  is_file_part part = true ->
  includes CRLFCRLF part = false ->
  parseMultipartForm req = Rejected (TypeError_read "undefined" "split")
  /\ (method req = lit "POST" ->
      exists r, response (handler env world req) = Some r /\ status r = 500%Z).
Proof.
  intros Hct Hc Hin Hf Hs.
  assert (Hp : parseMultipartForm req = Rejected (TypeError_read "undefined" "split")).
  { rewrite (parse_completes _ Hc), Hct. unfold on_end.
    destruct (forEach_throws {| fields := ∅; file := None |} _ part Hin) as [e He].
    - intros st1. apply parse_part_no_separator; assumption.
    - unfold body_of in He. rewrite He. rewrite (forEach_error _ _ _ He). reflexivity. }
  split; [exact Hp|].
  intros Hm. rewrite (handler_post _ Hm), Hp. eexists. split; reflexivity.
Qed.

End Handler.

(** ** Decoder: round trip, last file, falsy values *)

(** C2 (amended).  Round trip of the decoder on well-formed bodies.  Let
    the request announce the boundary [B] and let the text of its body be
    the encoding, with boundary [B], of one file part and three text fields
    with pairwise distinct names, in any order.  Assume the conditions of
    [boundary_ok] and [part_ok]: [B] is non-empty, without line break and
    without the text [boundary=]; the delimiter occurs in no part; names
    are non-empty, without double quote and CR, without [filename=] and
    different from [__proto__]; values are non-empty, without CR and
    without [filename=] followed by a double quote; the file name is
    non-empty and without double quote, the content type non-empty and
    without line break, and the content-type token occurs neither in the
    file part's field name nor in the file name.  Then the decoder resolves
    to a form in which the three names map to their exact values and the
    file has the submitted file name and content type.  Nothing is said
    about the bytes of the file. *)
Theorem well_formed_round_trip (req : Request) (B : jsstring) (parts : list Part)
    (n1 v1 n2 v2 n3 v3 fn filename ctype content : jsstring) :
  content_type req = Some (multipart_header B) ->
  completes (stream req) = true ->
  Buffer.toString (body_of req) = multipart_text B parts ->
  Permutation parts
    [Field n1 v1; Field n2 v2; Field n3 v3; File fn filename ctype content] ->
  List.NoDup [n1; n2; n3] ->
  boundary_ok B ->
  Forall (part_ok B) parts ->
  exists form,
    parseMultipartForm req = Resolved form
    /\ fields form !! n1 = Some v1
    /\ fields form !! n2 = Some v2
    /\ fields form !! n3 = Some v3
    /\ exists payload,
         file form = Some {| name := filename; data := payload; contentType := ctype |}.
Proof.
  intros Hct Hc Ht Hperm Hnd HB Hok.
  rewrite (parse_completes _ Hc), Hct.
  rewrite (decode_well_formed B HB _ parts Ht Hok).
  eexists. split; [reflexivity|].
  assert (Hnames : List.NoDup (field_names parts)).
  { apply (Permutation_NoDup (l := [n1; n2; n3])); [|exact Hnd].
    symmetry. unfold field_names. rewrite Hperm. reflexivity. }
  assert (Hin : forall p, In p [Field n1 v1; Field n2 v2; Field n3 v3;
                                File fn filename ctype content] -> In p parts).
  { intros p. apply Permutation_in. symmetry. exact Hperm. }
  assert (Hfile : files_of parts = [File fn filename ctype content]).
  { apply Permutation_singleton_r. unfold files_of. rewrite Hperm. reflexivity. }
  repeat split.
  - apply put_parts_field; [exact Hnames|apply Hin; cbn; tauto].
  - apply put_parts_field; [exact Hnames|apply Hin; cbn; tauto].
  - apply put_parts_field; [exact Hnames|apply Hin; cbn; tauto].
  - eexists. apply (put_parts_one_file _ _ _ _ _ _ Hfile).
Qed.

(** What a decoded file carries when nothing in the part cuts it short: the
    content and the line break in front of the next delimiter.  The
    trailing CRLF is not removed, because the dashes after it belong to the
    delimiter on which the body was split. *)
Lemma decoded_payload_keeps_line_break (n filename ctype content : jsstring) :
  ~ In CR n -> ~ In CR filename -> ~ In CR ctype ->
  includes CRLFCRLF (content ++ CRLF) = false ->
  includes (CRLF ++ lit "--") (content ++ CRLF) = false ->
  decoded_payload (part_text (File n filename ctype content))
  = Buffer.from_binary (content ++ CRLF).
Proof.
  intros Hn Hf Hc Hs Hd. unfold decoded_payload, file_of_part.
  replace (part_text (File n filename ctype content))
    with (((CRLF ++ lit "Content-Disposition: form-data; name=" ++ [dquote])
           ++ n ++ ([dquote] ++ lit "; filename=" ++ [dquote])
           ++ filename ++ ([dquote] ++ CRLF ++ lit "Content-Type: ") ++ ctype)
          ++ CRLFCRLF ++ (content ++ CRLF))
    by (rewrite file_text_eq, <- !app_assoc; reflexivity).
  rewrite split_first; [|discriminate|].
  - rewrite (split_none CRLFCRLF) by (discriminate || exact Hs).
    cbn [lookup list_lookup].
    rewrite (split_none (CRLF ++ lit "--")) by (discriminate || exact Hd).
    reflexivity.
  - apply nowhere_app; [vm_compute; repeat split|].
    apply nowhere_app; [apply nowhere_head, Hn|].
    apply nowhere_app; [vm_compute; repeat split|].
    apply nowhere_app; [apply nowhere_head, Hf|].
    apply nowhere_app; [vm_compute; repeat split|].
    apply nowhere_head, Hc.
Qed.

(** For a payload of ASCII bytes this is the payload with two more bytes,
    CR and LF, at its end. *)
Lemma decoded_ascii_payload (n filename ctype : jsstring) (payload : Bytes) :
  ~ In CR n -> ~ In CR filename -> ~ In CR ctype ->
  includes CRLFCRLF (List.map Byte.to_N payload ++ CRLF) = false ->
  includes (CRLF ++ lit "--") (List.map Byte.to_N payload ++ CRLF) = false ->
  decoded_payload (part_text (File n filename ctype (List.map Byte.to_N payload)))
  = payload ++ [x0d; x0a].
Proof.
  intros Hn Hf Hc Hs Hd.
  rewrite decoded_payload_keeps_line_break by assumption.
  change CRLF with (List.map Byte.to_N [x0d; x0a]).
  rewrite <- List.map_app. apply from_binary_to_N.
Qed.



(** C6. A text field part whose value is [undefined] or the empty string
    inserts nothing: the callback leaves the form as it is.  Hence a name
    [n] all of whose text field parts in the body carry such a value is
    absent from the decoded fields; and no name at all is ever mapped to
    the empty string. *)
Theorem falsy_field_value_not_inserted (req : Request) (form : DecodedForm)
    (header n : jsstring) :
  parseMultipartForm req = Resolved form ->
  content_type req = Some header ->
  (forall part, In part (parts_of header (body_of req)) ->
                is_field_part n part -> falsy (field_value part)) ->
  (forall st part m, is_field_part m part -> falsy (field_value part) ->
                     parse_part st part = Ok st)
  /\ fields form !! n = None
  /\ (forall m, fields form !! m <> Some []).
Proof.
  intros Hp Hct Hfalsy.
  destruct (parse_resolved _ _ Hp) as (header' & Hct' & Hfold).
  rewrite Hct in Hct'. injection Hct' as <-.
  split; [|split].
  - intros st part m. apply parse_part_falsy.
  - apply (forEach_absent _ _ _ n Hfalsy Hfold). apply lookup_empty.
  - apply (forEach_nonempty _ _ _ Hfold). intros m. cbn [fields].
    rewrite lookup_empty. discriminate.
Qed.

(** ** The theorems at the sample requests *)

Ltac not_in :=
  let H := fresh in
  unfold not; intros H; vm_compute in H;
  repeat (destruct H as [H|H]; [discriminate H|]); destruct H.

Ltac sample_check :=
  first [solve [vm_compute; reflexivity] | solve [vm_compute; discriminate] | solve [not_in]].

Ltac sample_part_ok :=
  split; [vm_compute; reflexivity|];
  unfold field_ok, file_ok; split_and!; sample_check.

Lemma options_answered_by_method_gate_witness :
  method ex_req_options = lit "OPTIONS"
  /\ response (handler ex_env ex_world ex_req_options) = Some method_not_allowed.
Proof.
  split; [reflexivity|].
  rewrite (proj1 (options_answered_by_method_gate ex_env ex_world ex_req_options eq_refl)).
  reflexivity.
Defined.

Lemma non_post_405_without_cors_witness :
  exists r,
    handler ex_env ex_world ex_req_get = {| trace := []; response := Some r |}
    /\ status r = 405%Z
    /\ body r = BodyJson (JObj [prop "error" (jstr "Method not allowed")])
    /\ headers r = []
    /\ (forall h, In h cors_headers -> ~ In h (headers r)).
Proof.
  apply (non_post_405_without_cors ex_env ex_world ex_req_get).
  vm_compute. discriminate.
Defined.

Lemma no_file_400_no_upstream_witness :
  response (handler ex_env ex_world ex_req_no_file) =
    Some {| status := 400; headers := cors_headers;
            body := BodyJson (JObj [prop "error" (jstr "No file uploaded")]) |}
  /\ Forall (fun e => is_upstream e = false) (trace (handler ex_env ex_world ex_req_no_file)).
Proof.
  eapply (no_file_400_no_upstream ex_env ex_world ex_req_no_file).
  - reflexivity.
  - vm_compute. reflexivity.
  - reflexivity.
Defined.

Lemma upload_failure_500_no_ticket_witness :
  (exists details,
      response (handler ex_env ex_world_down ex_req) =
        Some {| status := 500; headers := cors_headers;
                body := BodyJson (JObj [prop "error" (jstr "Form submission failed");
                                        prop "details" details]) |})
  /\ Forall (fun e => is_ticket e = false) (trace (handler ex_env ex_world_down ex_req)).
Proof.
  assert (Hp : exists form f, parseMultipartForm ex_req = Resolved form /\ file form = Some f).
  { eexists. eexists. split; [vm_compute; reflexivity|reflexivity]. }
  destruct Hp as (form & f & Hp & Hf).
  destruct (upload_failure_500_no_ticket ex_env ex_world_down ex_req form f eq_refl Hp Hf)
    as (H1 & _ & H3).
  - cbn. lia.
  - split; [exact H1|exact H3].
Defined.

Lemma parse_rejection_500_witness :
  parseMultipartForm ex_req_no_header = Rejected (TypeError_read "undefined" "split")
  /\ response (handler ex_env ex_world ex_req_no_header) =
       Some {| status := 500; headers := cors_headers;
               body := BodyJson (JObj [prop "error" (jstr "Form submission failed");
                                       prop "details"
                                         (JStr (lit "Cannot read properties of undefined (reading 'split')"))]) |}.
Proof.
  assert (Hp : parseMultipartForm ex_req_no_header
               = Rejected (TypeError_read "undefined" "split")) by reflexivity.
  split; [exact Hp|].
  rewrite (proj1 (parse_rejection_500 ex_env ex_world ex_req_no_header _ eq_refl Hp)).
  reflexivity.
Defined.

(** C7, counterexample.  Neither a missing boundary nor a part without
    headers makes the decoder throw.  With a [Content-Type] header that has
    no boundary parameter the boundary is [undefined], the delimiter
    becomes the text [--undefined] and the whole body is decoded as one
    part; a part without headers has no disposition token and is skipped.
    Both sample requests are decoded and answered with 400, not with
    500. *)
Lemma missing_boundary_is_not_rejected :
  (boundary_of (lit "multipart/form-data") = None
   /\ delimiter (lit "multipart/form-data") = lit "--undefined"
   /\ (exists form, parseMultipartForm ex_req_no_boundary = Resolved form)
   /\ exists r, response (handler ex_env ex_world ex_req_no_boundary) = Some r
                /\ status r = 400%Z /\ status r <> 500%Z)
  /\ (parseMultipartForm ex_req_headerless_part
      = Resolved {| fields := ∅; file := None |}
      /\ exists r, response (handler ex_env ex_world ex_req_headerless_part) = Some r
                   /\ status r = 400%Z /\ status r <> 500%Z).
Proof.
  split.
  - split; [reflexivity|]. split; [reflexivity|]. split.
    + eexists. vm_compute. reflexivity.
    + eexists. split; [vm_compute; reflexivity|]. split; [reflexivity|discriminate].
  - split; [vm_compute; reflexivity|].
    eexists. split; [vm_compute; reflexivity|]. split; [reflexivity|discriminate].
Qed.

(** C8, counterexample.  A part with the disposition token and a filename
    attribute whose quoted value is empty, and without an empty line: the
    filename pattern asks for one character at least between the quotes, so
    the part is not decoded as a file; the name pattern matches, the value
    is [undefined] and nothing is stored.  The decoder returns the empty
    form and the POST request is answered with 400, not with 500. *)
Lemma empty_filename_without_blank_line_is_skipped :
  In ex_broken_unnamed_part
     (parts_of (multipart_header ex_B) (body_of ex_req_broken_unnamed))
  /\ includes s_Content_Disposition ex_broken_unnamed_part = true
  /\ includes (lit "filename=") ex_broken_unnamed_part = true
  /\ includes CRLFCRLF ex_broken_unnamed_part = false
  /\ match_filename ex_broken_unnamed_part = None
  /\ parseMultipartForm ex_req_broken_unnamed = Resolved {| fields := ∅; file := None |}
  /\ exists r, response (handler ex_env ex_world ex_req_broken_unnamed) = Some r
               /\ status r = 400%Z /\ status r <> 500%Z.
Proof.
  split; [vm_compute; right; left; reflexivity|].
  split; [vm_compute; reflexivity|]. split; [vm_compute; reflexivity|].
  split; [vm_compute; reflexivity|]. split; [vm_compute; reflexivity|].
  split; [vm_compute; reflexivity|].
  eexists. split; [vm_compute; reflexivity|]. split; [reflexivity|discriminate].
Qed.

Lemma no_field_validation_witness :
  exists u t,
    In (UploadPost u) (trace (handler ex_env ex_world ex_req_only_file))
    /\ form_data (upload_form u) = Buffer.from_utf8 (lit "hello" ++ CRLF)
    /\ form_filename (upload_form u) = lit "d.pdf"
    /\ In (TicketPost t) (trace (handler ex_env ex_world ex_req_only_file))
    /\ get_opt (ticket_body t) "customer"
       = JObj [(lit "email", JUndefined); (lit "name", JUndefined)]
    /\ get_opt (ticket_body t) "subject" = JStr (lit "B2B Form Submission - undefined")
    /\ get_opt (ticket_body t) "tags" = JArr [JStr (lit "b2b-form"); JUndefined]
    /\ exists source html rest,
         get_opt (ticket_body t) "messages"
         = JArr [JObj ((lit "source", source) :: (lit "body_html", html)
                       :: (lit "body_text",
                           JStr ([LF] ++ lit "B2B Form Submission" ++ [LF]
                                 ++ lit "Company: undefined" ++ [LF]
                                 ++ lit "Email: undefined" ++ [LF]
                                 ++ lit "Organization Type: undefined" ++ [LF]
                                 ++ lit "Message: No message provided" ++ [LF]
                                 ++ lit "Attached Document: d.pdf" ++ [LF]
                                 ++ lit "    ")) :: rest)].
Proof.
  pose (f := {| name := lit "d.pdf"; data := Buffer.from_utf8 (lit "hello" ++ CRLF);
                contentType := lit "application/pdf" |}).
  pose (form := {| fields := ∅; file := Some f |}).
  assert (Hp : parseMultipartForm ex_req_only_file = Resolved form)
    by (vm_compute; reflexivity).
  destruct (no_field_validation ex_env ex_world ex_req_only_file form f
              eq_refl Hp eq_refl eq_refl eq_refl eq_refl eq_refl)
    as (u & Hup & Hform & Hticket).
  destruct (Hticket ex_uploaded eq_refl) as (t & Hin & Hbody);
    [discriminate|discriminate|].
  exists u, t. rewrite Hform, Hbody.
  split; [exact Hup|]. split; [reflexivity|]. split; [reflexivity|].
  split; [exact Hin|]. split; [reflexivity|]. split; [reflexivity|].
  split; [reflexivity|]. eexists _, _, _. vm_compute. reflexivity.
Defined.

Lemma file_part_without_blank_line_rejects_witness :
  is_file_part ex_broken_part = true
  /\ includes CRLFCRLF ex_broken_part = false
  /\ parseMultipartForm ex_req_broken = Rejected (TypeError_read "undefined" "split")
  /\ exists r, response (handler ex_env ex_world ex_req_broken) = Some r
               /\ status r = 500%Z.
Proof.
  assert (Hf : is_file_part ex_broken_part = true) by (vm_compute; reflexivity).
  assert (Hs : includes CRLFCRLF ex_broken_part = false) by (vm_compute; reflexivity).
  destruct (file_part_without_blank_line_rejects ex_env ex_world ex_req_broken
              (multipart_header ex_B) ex_broken_part eq_refl eq_refl) as [Hp Hr].
  - vm_compute. right. left. reflexivity.
  - exact Hf.
  - exact Hs.
  - split; [exact Hf|]. split; [exact Hs|]. split; [exact Hp|]. apply Hr. reflexivity.
Defined.

Lemma well_formed_round_trip_witness :
  exists form,
    parseMultipartForm ex_req = Resolved form
    /\ fields form !! lit "companyName" = Some (lit "Acme")
    /\ fields form !! lit "email" = Some (lit "a@b.c")
    /\ fields form !! lit "organizationType" = Some (lit "school")
    /\ exists payload,
         file form = Some {| name := lit "d.pdf"; data := payload;
                             contentType := lit "application/pdf" |}.
Proof.
  apply (well_formed_round_trip ex_req ex_B ex_parts
           (lit "companyName") (lit "Acme") (lit "email") (lit "a@b.c")
           (lit "organizationType") (lit "school")
           (lit "file") (lit "d.pdf") (lit "application/pdf") (lit "hello")).
  - reflexivity.
  - reflexivity.
  - vm_compute. reflexivity.
  - unfold ex_parts, ex_file. do 2 apply perm_skip. apply perm_swap.
  - repeat constructor; solve [not_in].
  - unfold boundary_ok. split_and!; sample_check.
  - unfold ex_parts. repeat (apply List.Forall_cons; [sample_part_ok|]). apply List.Forall_nil.
Defined.

(** C2, counterexample.  A well-formed body with one file part and three
    text fields, one of which was submitted empty: the empty field is not
    in the decoded fields, and the decoded file carries the content
    followed by a line break. *)
Lemma empty_value_breaks_round_trip :
  Buffer.toString (body_of ex_req_empty_value) = multipart_text ex_B ex_parts_empty_value
  /\ exists form fd,
       parseMultipartForm ex_req_empty_value = Resolved form
       /\ fields form !! lit "message" = None
       /\ fields form !! lit "message" <> Some []
       /\ file form = Some fd
       /\ data fd = Buffer.from_utf8 (lit "hello" ++ CRLF)
       /\ data fd <> Buffer.from_utf8 (lit "hello").
Proof.
  split; [vm_compute; reflexivity|].
  eexists. eexists. split; [vm_compute; reflexivity|].
  split; [vm_compute; reflexivity|].
  split; [vm_compute; discriminate|].
  split; [reflexivity|].
  split; [vm_compute; reflexivity|vm_compute; discriminate].
Qed.


Lemma falsy_field_value_not_inserted_witness :
  exists form,
    parseMultipartForm ex_req_empty_value = Resolved form
    /\ fields form !! lit "message" = None
    /\ (forall m, fields form !! m <> Some []).
Proof.
  assert (Hp : exists form, parseMultipartForm ex_req_empty_value = Resolved form)
    by (eexists; vm_compute; reflexivity).
  destruct Hp as [form Hp]. exists form. split; [exact Hp|].
  apply (falsy_field_value_not_inserted ex_req_empty_value form
           (multipart_header ex_B) (lit "message") Hp eq_refl).
  intros part Hin (_ & _ & Hn). vm_compute in Hin.
  repeat (destruct Hin as [<-|Hin]; [try (vm_compute in Hn; discriminate Hn)|]);
    [|destruct Hin].
  right. vm_compute. reflexivity.
Defined.

(** * Further properties of the code *)

(** ** Pieces of a split, captures of a search *)

Section Pieces.

Implicit Types (p sep a x s rest : jsstring) (c d : codeunit).

Lemma includes_head_false c p x : ~ In c x -> includes (c :: p) x = false.
Proof.
  induction x as [|b x IH]; intros Hx; [reflexivity|].
  cbn. destruct (N.eqb_spec c b) as [->|_].
  - exfalso. apply Hx. left. reflexivity.
  - cbn. apply IH. intros Hin. apply Hx. right. exact Hin.
Qed.

(** The first piece is a prefix of the text. *)
Lemma split_go_prefix sep s : exists r, s = (split_go sep 0 s).1 ++ r.
Proof.
  induction s as [|c s IH]; [exists []; reflexivity|].
  cbn [split_go]. destruct (startsWith sep (c :: s)).
  - exists (c :: s). reflexivity.
  - destruct IH as [r Hr]. destruct (split_go sep 0 s) as [p ps]. cbn in *.
    exists r. rewrite <- Hr. reflexivity.
Qed.

(** The separator does not occur in the first piece. *)
Lemma split_go_first_clean c sep s :
  includes (c :: sep) (split_go (c :: sep) 0 s).1 = false.
Proof.
  induction s as [|b s IH]; [reflexivity|].
  cbn [split_go]. destruct (startsWith (c :: sep) (b :: s)) eqn:E; [reflexivity|].
  destruct (split_go_prefix (c :: sep) s) as [r Hr].
  destruct (split_go (c :: sep) 0 s) as [p ps]. cbn [fst] in *.
  cbn [includes]. rewrite IH, orb_false_r.
  destruct (startsWith (c :: sep) (b :: p)) eqn:E'; [|reflexivity].
  apply (startsWith_app_l _ _ r) in E'. cbn [app] in E'. rewrite <- Hr in E'.
  congruence.
Qed.

Lemma split_first_clean c sep s x :
  split (c :: sep) s !! 0%nat = Some x -> includes (c :: sep) x = false.
Proof.
  unfold split. pose proof (split_go_first_clean c sep s) as H.
  destruct (split_go (c :: sep) 0 s) as [p ps]. cbn. intros [= <-]. exact H.
Qed.

Lemma substring_cons q c s : substring q s -> substring q (c :: s).
Proof. intros (a & b & ->). exists (c :: a), b. reflexivity. Qed.

(** Every piece of a split is a stretch of the text. *)
Lemma split_go_substring sep skip s q :
  In q ((split_go sep skip s).1 :: (split_go sep skip s).2) -> substring q s.
Proof.
  revert skip. induction s as [|c s IH]; intros skip Hq.
  - destruct Hq as [<-|[]]. exists [], []. reflexivity.
  - cbn [split_go] in Hq. destruct skip as [|k].
    + destruct (startsWith sep (c :: s)).
      * destruct Hq as [<-|Hq]; [exists [], (c :: s); reflexivity|].
        apply substring_cons, (IH (length sep - 1)%nat).
        destruct (split_go sep (length sep - 1) s). exact Hq.
      * destruct (split_go_prefix sep s) as [r Hr].
        specialize (IH 0%nat). destruct (split_go sep 0 s) as [p ps]. cbn [fst snd] in *.
        destruct Hq as [<-|Hq].
        -- exists [], r. cbn. rewrite <- Hr. reflexivity.
        -- apply substring_cons, IH. right. exact Hq.
    + apply substring_cons, (IH k), Hq.
Qed.

Lemma split_substring sep s q : In q (split sep s) -> substring q s.
Proof.
  unfold split. destruct sep as [|c sep].
  - intros Hq. apply in_map_iff in Hq as (b & <- & Hb).
    apply in_split in Hb as (l1 & l2 & ->). exists l1, l2. reflexivity.
  - intros Hq. apply (split_go_substring (c :: sep) 0).
    destruct (split_go (c :: sep) 0 s). exact Hq.
Qed.

Lemma includes_substring p q s :
  substring q s -> includes p q = true -> includes p s = true.
Proof.
  intros (a & b & ->) H. apply includes_app_r, includes_app_l, H.
Qed.

Lemma regex_search_found {A} (at_ : jsstring -> option A) s r :
  regex_search at_ s = Some r -> exists s', at_ s' = Some r.
Proof.
  induction s as [|c s IH]; cbn.
  - destruct (at_ []) eqn:E; [intros [= <-]; eauto|discriminate].
  - destruct (at_ (c :: s)) eqn:E; [intros [= <-]; eauto|exact IH].
Qed.

Lemma takeWhile_all f s : Forall (fun c => f c = true) (takeWhile f s).
Proof.
  induction s as [|c s IH]; cbn; [constructor|].
  destruct (f c) eqn:E; constructor; assumption.
Qed.

Lemma quoted_at_capture key s r :
  quoted_at key s = Some r -> r <> [] /\ ~ In dquote r.
Proof.
  unfold quoted_at. destruct (startsWith (key ++ [dquote]) s); [|discriminate].
  cbv zeta.
  pose proof (takeWhile_all (fun c => negb (c =? dquote))
                (drop (length key + 1) s)) as Hall.
  destruct (takeWhile _ _) as [|c run] eqn:E; [discriminate|].
  destruct (drop (length (c :: run)) _); [discriminate|].
  intros [= <-]. split; [discriminate|].
  intros Hin. rewrite List.Forall_forall in Hall. specialize (Hall _ Hin).
  rewrite N.eqb_refl in Hall. discriminate.
Qed.

Lemma line_at_capture key s r :
  line_at key s = Some r -> r <> [] /\ ~ In CR r /\ ~ In LF r.
Proof.
  unfold line_at. destruct (startsWith key s); [|discriminate].
  pose proof (takeWhile_all (fun c => negb (c =? CR) && negb (c =? LF))
                (drop (length key) s)) as Hall.
  destruct (takeWhile _ _) as [|c run] eqn:E; [discriminate|].
  intros [= <-]. rewrite List.Forall_forall in Hall.
  split; [discriminate|].
  split; intros Hin; specialize (Hall _ Hin); cbn in Hall; discriminate.
Qed.

End Pieces.

(** ** Decoder: when it settles, and with what *)

Section DecoderExtras.

Implicit Types (st : DecodedForm) (part n v : jsstring).

Lemma forEach_no_token st (l : list jsstring) :
  Forall (fun p => includes s_Content_Disposition p = false) l ->
  forEach st l = Ok st.
Proof.
  induction 1 as [|p l Hp _ IH]; [reflexivity|].
  cbn. rewrite (parse_part_no_token st p Hp). exact IH.
Qed.




Lemma set_field_lookup_key (m v n w : jsstring) (fs : gmap jsstring jsstring) :
  set_field m v fs !! n = Some w -> (n = m /\ w = v) \/ fs !! n = Some w.
Proof.
  unfold set_field. destruct (decide (m = lit "__proto__")); [auto|].
  destruct (decide (m = n)) as [->|Hne].
  - rewrite lookup_insert_eq. intros [= ->]. auto.
  - rewrite lookup_insert_ne by exact Hne. auto.
Qed.

Lemma parse_part_keep st st' part n :
  (is_field_part n part -> falsy (field_value part)) ->
  parse_part st part = Ok st' -> fields st' !! n = fields st !! n.
Proof.
  intros Hv H. unfold parse_part in H.
  destruct (includes s_Content_Disposition part) eqn:Ht; [|injection H as <-; reflexivity].
  destruct (match_filename part) eqn:Hf.
  { destruct (file_of_part l part); [|discriminate]. injection H as <-. reflexivity. }
  destruct (match_name part) as [m|] eqn:Hm; [|injection H as <-; reflexivity].
  destruct (field_value part) as [[|c v]|] eqn:Hval; try (injection H as <-; reflexivity).
  injection H as <-. cbn. destruct (decide (m = n)) as [->|Hne].
  - destruct Hv as [Hv|Hv]; [repeat split; assumption|discriminate|discriminate].
  - apply set_field_other, Hne.
Qed.

Lemma forEach_keep st st' (l : list jsstring) n :
  (forall part, In part l -> is_field_part n part -> falsy (field_value part)) ->
  forEach st l = Ok st' -> fields st' !! n = fields st !! n.
Proof.
  revert st. induction l as [|p l IH]; intros st Hl H.
  - injection H as <-. reflexivity.
  - cbn in H. destruct (parse_part st p) as [st1|] eqn:E; [|discriminate].
    rewrite (IH st1); [|intros part Hin; apply Hl; right; exact Hin|exact H].
    apply (parse_part_keep st st1 p n); [apply Hl; left; reflexivity|exact E].
Qed.

(** The invariant of the loop on which the shape of a decoded form rests:
    [P] holds of the form after a part when it held before it. *)
Lemma forEach_invariant (P : DecodedForm -> Prop) st st' (l : list jsstring) :
  (forall st1 st2 part, P st1 -> parse_part st1 part = Ok st2 -> P st2) ->
  P st -> forEach st l = Ok st' -> P st'.
Proof.
  intros Hstep. revert st. induction l as [|p l IH]; intros st Hst H.
  - injection H as <-. exact Hst.
  - cbn in H. destruct (parse_part st p) as [st1|] eqn:E; [|discriminate].
    apply (IH st1); [apply (Hstep st st1 p Hst E)|exact H].
Qed.

Lemma listen_pending ct acc (chunks : list Bytes) :
  listen ct acc (List.map EvData chunks) = Pending.
Proof. revert acc. induction chunks as [|c chunks IH]; intros acc; [reflexivity|apply IH]. Qed.

Lemma listen_rejected ct acc evs e :
  listen ct acc evs = Rejected e ->
  (exists chunks rest, evs = List.map EvData chunks ++ EvError e :: rest)
  \/ e = TypeError_read "undefined" "split".
Proof.
  revert acc. induction evs as [|ev evs IH]; intros acc H; [discriminate|].
  destruct ev as [chunk| |e']; cbn in H.
  - destruct (IH _ H) as [(chunks & rest & Hev)|He]; [left|right; exact He].
    exists (chunk :: chunks), rest. rewrite Hev. reflexivity.
  - right. unfold on_end in H. destruct ct as [header|].
    + destruct (forEach _ _) eqn:E; [discriminate|]. injection H as <-.
      apply (forEach_error _ _ _ E).
    + injection H as <-. reflexivity.
  - injection H as ->. left. exists [], evs. reflexivity.
Qed.

End DecoderExtras.


(** X2. The decoder rejects for two reasons only: the stream emitted
    [error] before it ended, and the rejection is that error; or the read
    of [split] on [undefined] threw, which is the case of the missing
    header and of the file part without empty line. *)
Theorem rejection_causes (req : Request) (e : JsError) :
  parseMultipartForm req = Rejected e ->
  (exists chunks rest, stream req = List.map EvData chunks ++ EvError e :: rest)
  \/ e = TypeError_read "undefined" "split".
Proof. apply listen_rejected. Qed.

(** X3. A stream that emits chunks and then neither [end] nor [error]
    leaves the promise pending: a POST request is never answered, and the
    handler has no effect, since nothing limits the wait. *)
Theorem pending_without_end (env : Env) (world : World) (req : Request)
    (chunks : list Bytes) :
  stream req = List.map EvData chunks ->
  parseMultipartForm req = Pending
  /\ (method req = lit "POST" ->
      handler env world req = {| trace := []; response := None |}).
Proof.
  intros Hs.
  assert (Hp : parseMultipartForm req = Pending)
    by (unfold parseMultipartForm; rewrite Hs; apply listen_pending).
  split; [exact Hp|]. intros Hm. rewrite (handler_post _ _ _ Hm), Hp. reflexivity.
Qed.

(** X4. How the body is cut into chunks is without effect: two requests
    with the same header whose chunks concatenate to the same bytes settle
    the same way. *)
Theorem chunking_is_irrelevant (req1 req2 : Request) :
  content_type req1 = content_type req2 ->
  completes (stream req1) = true ->
  completes (stream req2) = true ->
  body_of req1 = body_of req2 ->
  parseMultipartForm req1 = parseMultipartForm req2.
Proof.
  intros Hct H1 H2 Hb. rewrite (parse_completes _ H1), (parse_completes _ H2), Hct.
  unfold on_end. fold (body_of req1). fold (body_of req2). rewrite Hb. reflexivity.
Qed.

(** X5. A request without [Content-Type] header is rejected as soon as its
    body has arrived, whatever the body; a POST request is answered with
    500 and the message of the [TypeError] as details. *)
Theorem no_content_type_header_rejects (env : Env) (world : World) (req : Request) :
  content_type req = None ->
  completes (stream req) = true ->
  parseMultipartForm req = Rejected (TypeError_read "undefined" "split")
  /\ (method req = lit "POST" ->
      response (handler env world req) =
        Some {| status := 500; headers := cors_headers;
                body := BodyJson (JObj [prop "error" (jstr "Form submission failed");
                                        prop "details"
                                          (JStr (lit "Cannot read properties of undefined (reading 'split')"))]) |}).
Proof.
  intros Hct Hc. pose proof (missing_header_rejects req Hct Hc) as Hp.
  split; [exact Hp|]. intros Hm. rewrite (handler_post _ _ _ Hm), Hp. reflexivity.
Qed.

(** X6. An [error] of the stream before its end rejects the promise with
    that error, whatever was received; a POST request is answered with 500,
    and with the message of the error as details when the error carries no
    response. *)
Theorem stream_error_500 (env : Env) (world : World) (req : Request)
    (chunks : list Bytes) (e : JsError) (rest : list StreamEvent) :
  stream req = List.map EvData chunks ++ EvError e :: rest ->
  parseMultipartForm req = Rejected e
  /\ (method req = lit "POST" ->
      response (handler env world req) =
        Some {| status := 500; headers := cors_headers;
                body := BodyJson (JObj [prop "error" (jstr "Form submission failed");
                                        prop "details" (error_details e)]) |}
      /\ trace (handler env world req) =
           [ConsoleError [jstr "Error processing form:";
                          or_else (response_data e) (JStr (err_message e))]]
      /\ (err_response e = None -> error_details e = JStr (err_message e))).
Proof.
  intros Hs. pose proof (stream_error_rejects req chunks e rest Hs) as Hp.
  split; [exact Hp|]. intros Hm. rewrite (handler_post _ _ _ Hm), Hp.
  split; [reflexivity|]. split; [reflexivity|].
  intros Hr. unfold error_details, response_data. rewrite Hr. reflexivity.
Qed.

(** X7. A header in which the text [boundary=] does not occur gives no
    boundary, and the delimiter is then the text [--undefined]: no
    exception, the body is cut at that text. *)
Theorem missing_boundary_delimiter (header : jsstring) :
  includes (lit "boundary=") header = false ->
  boundary_of header = None /\ delimiter header = lit "--undefined".
Proof.
  intros H. unfold delimiter, boundary_of.
  rewrite (split_none _ header) by (discriminate || exact H).
  split; reflexivity.
Qed.

(** X8. The boundary is everything that follows [boundary=] in the header:
    quotes around it and parameters after it are taken as part of it. *)
Theorem boundary_is_rest_of_header (rest : jsstring) :
  includes (lit "boundary=") rest = false ->
  boundary_of (multipart_header rest) = Some rest
  /\ delimiter (multipart_header rest) = lit "--" ++ rest.
Proof.
  intros H.
  assert (Hb : boundary_of (multipart_header rest) = Some rest).
  { unfold boundary_of.
    change (multipart_header rest)
      with (lit "multipart/form-data; " ++ lit "boundary=" ++ rest).
    rewrite split_first; [|discriminate|vm_compute; repeat split].
    rewrite (split_none _ rest); [reflexivity|discriminate|exact H]. }
  split; [exact Hb|]. unfold delimiter. rewrite Hb. reflexivity.
Qed.

(** X9. A body in which the disposition token does not occur decodes to
    the empty form, no field and no file, whatever the header says; a POST
    request with such a body is answered with 400. *)
Theorem no_disposition_token_empty_form (env : Env) (world : World) (req : Request)
    (header : jsstring) :
  content_type req = Some header ->
  completes (stream req) = true ->
  includes s_Content_Disposition (Buffer.toString (body_of req)) = false ->
  parseMultipartForm req = Resolved {| fields := ∅; file := None |}
  /\ (method req = lit "POST" ->
      response (handler env world req) =
        Some {| status := 400; headers := cors_headers;
                body := BodyJson (JObj [prop "error" (jstr "No file uploaded")]) |}).
Proof.
  intros Hct Hc Hb.
  assert (Hp : parseMultipartForm req = Resolved {| fields := ∅; file := None |}).
  { rewrite (parse_completes _ Hc), Hct. unfold on_end. fold (body_of req).
    rewrite forEach_no_token; [reflexivity|].
    apply List.Forall_forall. intros p Hin. unfold parts_of in Hin.
    apply split_substring in Hin.
    destruct (includes s_Content_Disposition p) eqn:E; [|reflexivity].
    rewrite (includes_substring _ _ _ Hin E) in Hb. discriminate. }
  split; [exact Hp|]. intros Hm. rewrite (handler_post _ _ _ Hm), Hp. reflexivity.
Qed.

(** X10. The last value of a name wins.  If a text field part of the body
    carries the name [n], other than [__proto__], with a non-empty value,
    and no text field part after it carries [n] with a non-empty value,
    then [n] maps to that value, whatever came before. *)
Theorem last_field_value_wins (req : Request) (form : DecodedForm)
    (header : jsstring) (before after : list jsstring) (part n v : jsstring) :
  parseMultipartForm req = Resolved form ->
  content_type req = Some header ->
  parts_of header (body_of req) = before ++ part :: after ->
  is_field_part n part ->
  field_value part = Some v -> v <> [] ->
  n <> lit "__proto__" ->
  (forall p, In p after -> is_field_part n p -> falsy (field_value p)) ->
  fields form !! n = Some v.
Proof.
  intros Hp Hct Hparts (Ht & Hf & Hn) Hv Hne Hproto Hafter.
  destruct (parse_resolved _ _ Hp) as (header' & Hct' & Hfold).
  rewrite Hct in Hct'. injection Hct' as <-.
  rewrite Hparts, forEach_app in Hfold.
  destruct (forEach _ before) as [st1|]; [|discriminate].
  cbn [forEach] in Hfold. unfold parse_part in Hfold.
  rewrite Ht, Hf, Hn, Hv in Hfold. destruct v as [|c v]; [congruence|].
  rewrite (forEach_keep _ _ _ n Hafter Hfold). cbn [fields].
  unfold set_field. rewrite decide_False by exact Hproto. apply lookup_insert_eq.
Qed.

(** X11. No part can reach the prototype of the form: the key [__proto__]
    is never among the decoded fields. *)
Theorem proto_never_a_field (req : Request) (form : DecodedForm) :
  parseMultipartForm req = Resolved form ->
  fields form !! lit "__proto__" = None.
Proof.
  intros Hp. destruct (parse_resolved _ _ Hp) as (header & _ & Hfold).
  apply (forEach_invariant (fun st => fields st !! lit "__proto__" = None) _ _ _)
    with (3 := Hfold); [|apply lookup_empty].
  intros st1 st2 part H1 H. unfold parse_part in H.
  destruct (includes s_Content_Disposition part); [|injection H as <-; exact H1].
  destruct (match_filename part).
  { destruct (file_of_part l part); [|discriminate]. injection H as <-. exact H1. }
  destruct (match_name part) as [m|]; [|injection H as <-; exact H1].
  destruct (field_value part) as [[|c v]|]; try (injection H as <-; exact H1).
  injection H as <-. cbn. unfold set_field.
  destruct (decide (m = lit "__proto__")) as [->|Hne]; [exact H1|].
  rewrite lookup_insert_ne by exact Hne. exact H1.
Qed.

(** X12. The shape of every decoded field: the name is non-empty and has
    no double quote; the value is non-empty and contains no line break
    (CR LF), since it ends at the first one. *)
Theorem decoded_fields_shape (req : Request) (form : DecodedForm) (n v : jsstring) :
  parseMultipartForm req = Resolved form ->
  fields form !! n = Some v ->
  n <> [] /\ ~ In dquote n /\ v <> [] /\ includes CRLF v = false.
Proof.
  intros Hp. destruct (parse_resolved _ _ Hp) as (header & _ & Hfold). revert n v.
  apply (forEach_invariant
           (fun st => forall n v, fields st !! n = Some v ->
                                  n <> [] /\ ~ In dquote n /\ v <> [] /\ includes CRLF v = false)
           _ _ _) with (3 := Hfold); [|intros n v; cbn [fields]; rewrite lookup_empty; discriminate].
  intros st1 st2 part H1 H. unfold parse_part in H.
  destruct (includes s_Content_Disposition part); [|injection H as <-; exact H1].
  destruct (match_filename part).
  { destruct (file_of_part l part); [|discriminate]. injection H as <-. exact H1. }
  destruct (match_name part) as [m|] eqn:Hm; [|injection H as <-; exact H1].
  destruct (field_value part) as [[|c w]|] eqn:Hv; try (injection H as <-; exact H1).
  injection H as <-. intros n v Hl. cbn in Hl.
  apply set_field_lookup_key in Hl as [[-> ->]|Hl]; [|apply (H1 _ _ Hl)].
  unfold match_name in Hm. apply regex_search_found in Hm as [s' Hm].
  apply quoted_at_capture in Hm as [Hne Hq].
  split; [exact Hne|]. split; [exact Hq|]. split; [discriminate|].
  unfold field_value in Hv. destruct (split CRLFCRLF part !! 1%nat) as [b|]; [|discriminate].
  apply (split_first_clean CR [LF] b _ Hv).
Qed.

(** X13. The shape of every decoded file: its name is non-empty and has no
    double quote; its content type is non-empty and has no line break. *)
Theorem decoded_file_shape (req : Request) (form : DecodedForm) (fd : FileData) :
  parseMultipartForm req = Resolved form ->
  file form = Some fd ->
  name fd <> [] /\ ~ In dquote (name fd)
  /\ contentType fd <> [] /\ ~ In CR (contentType fd) /\ ~ In LF (contentType fd).
Proof.
  intros Hp. destruct (parse_resolved _ _ Hp) as (header & _ & Hfold). revert fd.
  apply (forEach_invariant
           (fun st => forall fd, file st = Some fd ->
                                 name fd <> [] /\ ~ In dquote (name fd)
                                 /\ contentType fd <> [] /\ ~ In CR (contentType fd)
                                 /\ ~ In LF (contentType fd))
           _ _ _) with (3 := Hfold); [|intros fd; discriminate].
  intros st1 st2 part H1 H. unfold parse_part in H.
  destruct (includes s_Content_Disposition part); [|injection H as <-; exact H1].
  destruct (match_filename part) as [fname|] eqn:Hf.
  - unfold file_of_part in H.
    destruct (split CRLFCRLF part !! 1%nat) as [fc|]; [|discriminate].
    destruct (split (CRLF ++ lit "--") fc !! 0%nat) as [payload|]; [|discriminate].
    injection H as <-. intros fd [= <-]. cbn [name contentType].
    unfold match_filename in Hf. apply regex_search_found in Hf as [s' Hf].
    apply quoted_at_capture in Hf as [Hne Hq].
    split; [exact Hne|]. split; [exact Hq|].
    destruct (match_contentType part) as [ct|] eqn:Hct.
    + unfold match_contentType in Hct. apply regex_search_found in Hct as [s'' Hct].
      apply line_at_capture in Hct. exact Hct.
    + split; [discriminate|].
      split; intros Hin; vm_compute in Hin;
        repeat (destruct Hin as [Hin|Hin]; [discriminate Hin|]); destruct Hin.
  - destruct (match_name part) as [m|]; [|injection H as <-; exact H1].
    destruct (field_value part) as [[|c w]|]; injection H as <-; exact H1.
Qed.

(** X14. A file part in which the content-type token does not occur is
    given the content type [application/octet-stream]. *)
Theorem default_content_type (st st' : DecodedForm) (part : jsstring) :
  is_file_part part = true ->
  includes (lit "Content-Type: ") part = false ->
  parse_part st part = Ok st' ->
  exists fd, file st' = Some fd /\ contentType fd = lit "application/octet-stream".
Proof.
  unfold is_file_part, parse_part, file_of_part. intros Hf Hc H.
  apply andb_true_iff in Hf as [Ht Hf]. rewrite Ht in H.
  destruct (match_filename part) as [fname|]; [|discriminate].
  unfold match_contentType in H.
  rewrite (regex_search_none _ (lit "Content-Type: ")) in H;
    [|intros s; apply line_at_miss|discriminate|exact Hc].
  destruct (split CRLFCRLF part !! 1%nat) as [fc|]; [|discriminate].
  destruct (split (CRLF ++ lit "--") fc !! 0%nat) as [payload|]; [|discriminate].
  injection H as <-. eexists. split; reflexivity.
Qed.

(** ** Decoder: what a part loses, and bodies of any number of parts *)

Section PartExtras.

Implicit Types (st : DecodedForm) (n v filename ctype content : jsstring).

Lemma file_header_clean n filename ctype (rest : jsstring) :
  ~ In CR n -> ~ In CR filename -> ~ In CR ctype ->
  nowhere (startsWith CRLFCRLF)
    ((CRLF ++ lit "Content-Disposition: form-data; name=" ++ [dquote])
     ++ n ++ ([dquote] ++ lit "; filename=" ++ [dquote])
     ++ filename ++ ([dquote] ++ CRLF ++ lit "Content-Type: ") ++ ctype)
    (CRLFCRLF ++ rest).
Proof.
  intros Hn Hf Hc.
  apply nowhere_app; [vm_compute; repeat split|].
  apply nowhere_app; [apply nowhere_head, Hn|].
  apply nowhere_app; [vm_compute; repeat split|].
  apply nowhere_app; [apply nowhere_head, Hf|].
  apply nowhere_app; [vm_compute; repeat split|].
  apply nowhere_head, Hc.
Qed.

Lemma decoded_payload_cut n filename ctype (c1 c2 : jsstring) :
  ~ In CR n -> ~ In CR filename -> ~ In CR ctype -> ~ In CR c1 ->
  decoded_payload (part_text (File n filename ctype (c1 ++ CRLFCRLF ++ c2)))
  = Buffer.from_binary c1.
Proof.
  intros Hn Hf Hc H1. unfold decoded_payload, file_of_part.
  replace (part_text (File n filename ctype (c1 ++ CRLFCRLF ++ c2)))
    with (((CRLF ++ lit "Content-Disposition: form-data; name=" ++ [dquote])
           ++ n ++ ([dquote] ++ lit "; filename=" ++ [dquote])
           ++ filename ++ ([dquote] ++ CRLF ++ lit "Content-Type: ") ++ ctype)
          ++ CRLFCRLF ++ (c1 ++ CRLFCRLF ++ (c2 ++ CRLF)))
    by (rewrite file_text_eq, <- !app_assoc; reflexivity).
  rewrite split_first; [|discriminate|apply file_header_clean; assumption].
  rewrite split_first; [|discriminate|apply nowhere_head, H1].
  cbn [lookup list_lookup].
  rewrite (split_none (CRLF ++ lit "--") c1);
    [reflexivity|discriminate|apply includes_head_false, H1].
Qed.

Lemma field_match_filename_any n v :
  ~ In dquote n -> includes (lit "filename=") n = false ->
  includes (lit "filename=" ++ [dquote]) v = false ->
  match_filename (part_text (Field n v)) = None.
Proof.
  intros Hq Hn Hv. unfold match_filename. rewrite field_text_eq.
  assert (Hmiss : forall s, startsWith (lit "filename=" ++ [dquote]) s = false ->
                            quoted_at (lit "filename=") s = None)
    by (intros s; apply quoted_at_miss).
  rewrite (regex_search_skip _ _ _ _ Hmiss); [|vm_compute; repeat split].
  rewrite (regex_search_skip _ _ _ _ Hmiss);
    [|apply nowhere_aligned;
      [vm_compute; intuition discriminate|exact Hq|exact Hn]].
  rewrite app_assoc.
  rewrite (regex_search_skip _ _ _ _ Hmiss); [|vm_compute; repeat split].
  rewrite (regex_search_skip _ _ _ _ Hmiss);
    [|apply nowhere_stop; [vm_compute; intuition discriminate|exact Hv]].
  reflexivity.
Qed.

Lemma split_head_eq c sep (s : jsstring) :
  split (c :: sep) s !! 0%nat = Some (split_go (c :: sep) 0 s).1.
Proof. unfold split. destruct (split_go (c :: sep) 0 s). reflexivity. Qed.

Lemma field_value_cut n (v1 v2 : jsstring) :
  ~ In CR n -> ~ In CR v1 ->
  field_value (part_text (Field n (v1 ++ CRLF ++ v2))) = Some v1.
Proof.
  intros Hn H1. unfold field_value.
  replace (part_text (Field n (v1 ++ CRLF ++ v2)))
    with (((CRLF ++ lit "Content-Disposition: form-data; name=" ++ [dquote])
           ++ n ++ [dquote]) ++ CRLFCRLF ++ (v1 ++ CR :: LF :: v2 ++ CRLF))
    by (rewrite field_text_eq, <- !app_assoc; reflexivity).
  rewrite split_first; [|discriminate|].
  2:{ apply nowhere_app; [vm_compute; repeat split|].
      apply nowhere_app; [apply nowhere_head, Hn|vm_compute; repeat split]. }
  cbn [lookup list_lookup]. unfold CRLFCRLF at 1. rewrite split_head_eq.
  rewrite split_go_nowhere by (apply nowhere_head, H1). cbn [fst].
  cbn [split_go]. destruct (startsWith [CR; LF; CR; LF] (CR :: LF :: v2 ++ CRLF)).
  - cbn [fst]. rewrite app_nil_r.
    rewrite (split_none CRLF v1); [reflexivity|discriminate|apply includes_head_false, H1].
  - change (startsWith [CR; LF; CR; LF] (LF :: v2 ++ CRLF)) with false. cbv iota.
    destruct (split_go [CR; LF; CR; LF] 0 (v2 ++ CRLF)) as [p ps]. cbn [fst].
    change (v1 ++ CR :: LF :: p) with (v1 ++ CRLF ++ p).
    rewrite split_first; [reflexivity|discriminate|apply nowhere_head, H1].
Qed.

Lemma decoded_payload_pieces n filename ctype content :
  exists fileContent payload,
    split CRLFCRLF (part_text (File n filename ctype content)) !! 1%nat = Some fileContent
    /\ split (CRLF ++ lit "--") fileContent !! 0%nat = Some payload
    /\ decoded_payload (part_text (File n filename ctype content))
       = Buffer.from_binary payload.
Proof.
  destruct (split_second CRLFCRLF (part_text (File n filename ctype content)))
    as [fc Hfc]; [discriminate|apply file_has_separator|].
  destruct (split_head (CRLF ++ lit "--") fc) as [payload Hp]; [discriminate|].
  exists fc, payload. split; [exact Hfc|]. split; [exact Hp|].
  unfold decoded_payload, file_of_part. rewrite Hfc, Hp. reflexivity.
Qed.

Lemma put_parts_app st (l1 l2 : list Part) :
  fold_left put_part (l1 ++ l2) st = fold_left put_part l2 (fold_left put_part l1 st).
Proof. apply fold_left_app. Qed.

End PartExtras.

(** X15. Only the first empty line of a file part separates header and
    content, and the content ends at the next one: a file whose content is
    a line, an empty line and more is decoded as the first line alone (here
    for a field name, file name, content type and first line without CR). *)
Theorem payload_cut_at_blank_line (st : DecodedForm)
    (n filename ctype c1 c2 : jsstring) :
  file_ok n filename ctype ->
  ~ In CR n -> ~ In CR filename -> ~ In CR c1 ->
  parse_part st (part_text (File n filename ctype (c1 ++ CRLFCRLF ++ c2)))
  = Ok {| fields := fields st;
          file := Some {| name := filename; data := Buffer.from_binary c1;
                          contentType := ctype |} |}.
Proof.
  intros Hok Hn Hf H1. rewrite (parse_file_part _ _ _ _ _ Hok). unfold put_part.
  destruct Hok as (_ & _ & _ & _ & _ & _ & _ & Hc & _).
  rewrite decoded_payload_cut by assumption. reflexivity.
Qed.

(** X16. The bytes of a decoded file are the bytes of the submitted content
    followed by CR and LF: the line break in front of the next delimiter
    stays in the data (here for ASCII content that contains neither an
    empty line nor a CR LF followed by two dashes). *)
Theorem file_data_has_trailing_line_break (st : DecodedForm)
    (n filename ctype : jsstring) (payload : Bytes) :
  file_ok n filename ctype ->
  ~ In CR n -> ~ In CR filename ->
  includes CRLFCRLF (List.map Byte.to_N payload ++ CRLF) = false ->
  includes (CRLF ++ lit "--") (List.map Byte.to_N payload ++ CRLF) = false ->
  parse_part st (part_text (File n filename ctype (List.map Byte.to_N payload)))
  = Ok {| fields := fields st;
          file := Some {| name := filename; data := payload ++ [x0d; x0a];
                          contentType := ctype |} |}.
Proof.
  intros Hok Hn Hf Hs Hd. rewrite (parse_file_part _ _ _ _ _ Hok). unfold put_part.
  destruct Hok as (_ & _ & _ & _ & _ & _ & _ & Hc & _).
  rewrite decoded_ascii_payload by assumption. reflexivity.
Qed.

(** X17. The value of a text field ends at its first line break: of a value
    of several lines only the first line is stored (here for a first line
    that is non-empty and without CR). *)
Theorem field_value_cut_at_line_break (st : DecodedForm) (n v1 v2 : jsstring) :
  n <> [] -> ~ In dquote n -> ~ In CR n ->
  includes (lit "filename=") n = false ->
  n <> lit "__proto__" ->
  v1 <> [] -> ~ In CR v1 ->
  includes (lit "filename=" ++ [dquote]) (v1 ++ CRLF ++ v2) = false ->
  parse_part st (part_text (Field n (v1 ++ CRLF ++ v2)))
  = Ok {| fields := <[n := v1]> (fields st); file := file st |}.
Proof.
  intros Hne Hq Hc Hf Hp H1 H1c Hv. unfold parse_part.
  rewrite field_has_token, field_match_filename_any, field_match_name, field_value_cut
    by assumption.
  destruct v1 as [|c v1]; [congruence|].
  unfold set_field. rewrite decide_False by exact Hp. reflexivity.
Qed.

(** X18. A well-formed body of any number of parts, names possibly
    repeated: the decoder resolves; a name maps to the value of its last
    text field part; a name that no text field part carries is absent;
    there is no file when the body has no file part; otherwise the file has
    the file name and the content type of the last file part, and its data
    are the low bytes of the text of that part between its first empty line
    and the next empty line or the next CR LF followed by two dashes: the
    content of the last file part followed by CR and LF, when the field
    name and the file name hold no CR and the content holds neither an
    empty line nor a CR LF followed by two dashes. *)
Theorem well_formed_body_decodes (req : Request) (B : jsstring) (parts : list Part) :
  content_type req = Some (multipart_header B) ->
  completes (stream req) = true ->
  Buffer.toString (body_of req) = multipart_text B parts ->
  boundary_ok B ->
  Forall (part_ok B) parts ->
  exists form,
    parseMultipartForm req = Resolved form
    /\ (forall n, ~ In n (field_names parts) -> fields form !! n = None)
    /\ (forall before n v after,
          parts = before ++ Field n v :: after -> ~ In n (field_names after) ->
          fields form !! n = Some v)
    /\ (files_of parts = [] -> file form = None)
    /\ (forall before n filename ctype content after,
          parts = before ++ File n filename ctype content :: after ->
          files_of after = [] ->
          (exists fileContent payload,
              split CRLFCRLF (part_text (File n filename ctype content)) !! 1%nat
              = Some fileContent
              /\ split (CRLF ++ lit "--") fileContent !! 0%nat = Some payload
              /\ file form = Some {| name := filename;
                                     data := Buffer.from_binary payload;
                                     contentType := ctype |})
          /\ (~ In CR n -> ~ In CR filename ->
              includes CRLFCRLF (content ++ CRLF) = false ->
              includes (CRLF ++ lit "--") (content ++ CRLF) = false ->
              file form = Some {| name := filename;
                                  data := Buffer.from_binary (content ++ CRLF);
                                  contentType := ctype |})).
Proof.
  intros Hct Hc Ht HB Hok.
  rewrite (parse_completes _ Hc), Hct.
  rewrite (decode_well_formed B HB _ parts Ht Hok).
  eexists. split; [reflexivity|]. split; [|split; [|split]].
  - intros n Hn. rewrite put_parts_other by exact Hn. apply lookup_empty.
  - intros before n v after -> Hn. rewrite put_parts_app. cbn [fold_left].
    rewrite put_parts_other by exact Hn. cbn. apply lookup_insert_eq.
  - intros Hf. rewrite put_parts_no_file by exact Hf. reflexivity.
  - intros before n filename ctype content after -> Hf.
    rewrite put_parts_app. cbn [fold_left].
    rewrite put_parts_no_file by exact Hf. cbn [put_part file]. split.
    + destruct (decoded_payload_pieces n filename ctype content)
        as (fc & payload & Hfc & Hpl & Hd).
      exists fc, payload. split; [exact Hfc|]. split; [exact Hpl|].
      rewrite Hd. reflexivity.
    + intros Hn Hfn Hs Hd.
      assert (Hp : part_ok B (File n filename ctype content)).
      { rewrite List.Forall_forall in Hok. apply Hok.
        apply in_or_app. right. left. reflexivity. }
      destruct Hp as [_ (_ & _ & _ & _ & _ & _ & _ & Hcc & _)].
      rewrite decoded_payload_keeps_line_break by assumption. reflexivity.
Qed.

(** ** Handler: the two upstream calls and the answer *)

Section HandlerExtras.

Variable env : Env.
Variable world : World.

Lemma axios_post_2xx (code : Z) (payload : jsval) :
  (200 <= code < 300)%Z -> axios_post (HttpReply code payload) = Ok payload.
Proof.
  intros H. cbn.
  destruct (Z.leb_spec 200 code); [|lia]. destruct (Z.ltb_spec code 300); [|lia].
  reflexivity.
Qed.

Lemma get_nullish (v : jsval) (k : string) :
  v = JUndefined \/ v = JNull ->
  get v k = Err (TypeError_read (match v with JNull => "null" | _ => "undefined" end) k).
Proof. intros [-> | ->]; reflexivity. Qed.

Lemma base64_digit_safe (n : N) :
  header_safe (Buffer.base64_digit n).
Proof.
  unfold header_safe, Buffer.base64_digit.
  destruct (N.ltb_spec n 26); [unfold CR, LF; lia|].
  destruct (N.ltb_spec n 52); [unfold CR, LF; lia|].
  destruct (N.ltb_spec n 62); [unfold CR, LF; lia|].
  destruct (n =? 62); unfold CR, LF; lia.
Qed.

Lemma base64_units_safe (bs : list N) :
  Forall header_safe (Buffer.base64_units bs).
Proof.
  assert (H : forall k bs, (length bs <= k)%nat ->
                           Forall header_safe (Buffer.base64_units bs)).
  { induction k as [|k IH]; intros l Hl.
    - destruct l; [constructor|cbn in Hl; lia].
    - destruct l as [|a [|b [|c rest]]]; cbn [Buffer.base64_units].
      + constructor.
      + repeat constructor; try apply base64_digit_safe; unfold header_safe, CR, LF; lia.
      + repeat constructor; try apply base64_digit_safe; unfold header_safe, CR, LF; lia.
      + repeat (apply List.Forall_cons; [apply base64_digit_safe|]).
        apply IH. cbn in Hl. lia. }
  apply (H (length bs)). lia.
Qed.

End HandlerExtras.

(** X19. The success path.  For a POST request that decodes with a file:
    let [u] be the upload of the file's data, name and content type to the
    upload address of the subdomain, and [t] the ticket request written out
    below, whose body holds the decoded fields (the word [undefined] for an
    absent one, the default text for an absent or empty message, line feeds
    of the message as [<br>] in the HTML body), the file name, and the four
    properties [url], [name], [size] and [content_type] of the upload's
    answer.  When [u] is answered 2xx with data other than [undefined] and
    [null], and [t] is answered 2xx with data other than [undefined] and
    [null], the response is 200 with the three CORS headers and with
    [success], the [id] of the ticket as [ticketId] and the [url] of the
    upload as [attachmentUrl]; and the upstream calls are [u] and then [t],
    once each. *)
Theorem submission_succeeds (env : Env) (world : World) (req : Request)
    (form : DecodedForm) (f : FileData) (u : UploadCall) (t : TicketCall)
    (companyName email organizationType message : option jsstring)
    (uploaded created : jsval) (c1 c2 : Z) :
  method req = lit "POST" ->
  parseMultipartForm req = Resolved form ->
  file form = Some f ->
  fields form !! lit "companyName" = companyName ->
  fields form !! lit "email" = email ->
  fields form !! lit "organizationType" = organizationType ->
  fields form !! lit "message" = message ->
  u = {| upload_url :=
           lit "https://"
           ++ match GORGIAS_SUBDOMAIN env with Some s => s | None => lit "undefined" end
           ++ lit ".gorgias.com/api/upload?type=attachment";
         upload_authorization := getBasicAuth (GORGIAS_USERNAME env) (GORGIAS_API_KEY env);
         upload_form := {| form_field := lit "file"; form_data := data f;
                           form_filename := name f;
                           form_contentType := contentType f |} |} ->
  t = {| ticket_url :=
           lit "https://"
           ++ match GORGIAS_SUBDOMAIN env with Some s => s | None => lit "undefined" end
           ++ lit ".gorgias.com/api/tickets";
         ticket_authorization := getBasicAuth (GORGIAS_USERNAME env) (GORGIAS_API_KEY env);
         ticket_body :=
           JObj [
             (lit "channel", JStr (lit "email"));
             (lit "via", JStr (lit "api"));
             (lit "customer",
              JObj [(lit "email",
                     match email with Some s => JStr s | None => JUndefined end);
                    (lit "name",
                     match companyName with Some s => JStr s | None => JUndefined end)]);
             (lit "messages", JArr [
               JObj [
                 (lit "source", JObj [
                   (lit "type", JStr (lit "email"));
                   (lit "to", JArr [
                     JObj [(lit "address",
                            match GORGIAS_EMAIL env with
                            | Some s => JStr s
                            | None => JUndefined
                            end)]]);
                   (lit "from",
                    JObj [(lit "address",
                           match email with Some s => JStr s | None => JUndefined end)])]);
                 (lit "body_html", JStr (
                   [LF] ++ lit "      <h3>B2B Form Submission</h3>" ++ [LF]
                   ++ lit "      <p><strong>Company:</strong> "
                   ++ match companyName with Some s => s | None => lit "undefined" end
                   ++ lit "</p>" ++ [LF]
                   ++ lit "      <p><strong>Email:</strong> "
                   ++ match email with Some s => s | None => lit "undefined" end
                   ++ lit "</p>" ++ [LF]
                   ++ lit "      <p><strong>Organization Type:</strong> "
                   ++ match organizationType with Some s => s | None => lit "undefined" end
                   ++ lit "</p>" ++ [LF]
                   ++ lit "      <p><strong>Message:</strong></p>" ++ [LF]
                   ++ lit "      <p>"
                   ++ match message with
                      | Some (c :: m) => replace_LF (lit "<br>") (c :: m)
                      | _ => lit "No message provided"
                      end
                   ++ lit "</p>" ++ [LF]
                   ++ lit "      <p><strong>Attached Document:</strong> "
                   ++ name f ++ lit "</p>" ++ [LF]
                   ++ lit "    "));
                 (lit "body_text", JStr (
                   [LF] ++ lit "B2B Form Submission" ++ [LF]
                   ++ lit "Company: "
                   ++ match companyName with Some s => s | None => lit "undefined" end
                   ++ [LF]
                   ++ lit "Email: "
                   ++ match email with Some s => s | None => lit "undefined" end
                   ++ [LF]
                   ++ lit "Organization Type: "
                   ++ match organizationType with Some s => s | None => lit "undefined" end
                   ++ [LF]
                   ++ lit "Message: "
                   ++ match message with
                      | Some (c :: m) => c :: m
                      | _ => lit "No message provided"
                      end
                   ++ [LF]
                   ++ lit "Attached Document: " ++ name f ++ [LF]
                   ++ lit "    "));
                 (lit "channel", JStr (lit "email"));
                 (lit "from_agent", JBool false);
                 (lit "via", JStr (lit "api"));
                 (lit "attachments", JArr [
                   JObj [(lit "url", get_opt uploaded "url");
                         (lit "name", get_opt uploaded "name");
                         (lit "size", get_opt uploaded "size");
                         (lit "content_type", get_opt uploaded "content_type")]])]]);
             (lit "subject",
              JStr (lit "B2B Form Submission - "
                    ++ match companyName with Some s => s | None => lit "undefined" end));
             (lit "tags",
              JArr [JStr (lit "b2b-form");
                    match organizationType with
                    | Some s => JStr s
                    | None => JUndefined
                    end])] |} ->
  upload_reply world u = HttpReply c1 uploaded ->
  (200 <= c1 < 300)%Z ->
  uploaded <> JUndefined -> uploaded <> JNull ->
  ticket_reply world t = HttpReply c2 created ->
  (200 <= c2 < 300)%Z ->
  created <> JUndefined -> created <> JNull ->
  response (handler env world req) =
    Some {| status := 200;
            headers := [ (lit "Access-Control-Allow-Origin", lit "*");
                         (lit "Access-Control-Allow-Methods", lit "POST, OPTIONS");
                         (lit "Access-Control-Allow-Headers", lit "Content-Type") ];
            body := BodyJson (JObj [
              (lit "success", JBool true);
              (lit "ticketId", get_opt created "id");
              (lit "message", JStr (lit "Form submitted successfully"));
              (lit "attachmentUrl", get_opt uploaded "url")]) |}
  /\ List.filter is_upstream (trace (handler env world req))
     = [UploadPost u; TicketPost t].
Proof.
  intros Hm Hp Hf Hcn Hem Hot Hmsg Eu Et Hu H1 Hun1 Hun2 Hr H2 Hcu Hcnl.
  assert (Eu' : upload_call env f = u) by (rewrite Eu; reflexivity).
  assert (Et' : ticket_call env companyName email organizationType message
                  (name f) uploaded = Ok t).
  { rewrite Et. unfold ticket_call.
    rewrite !(get_defined uploaded) by assumption. reflexivity. }
  rewrite (handler_post _ _ _ Hm), Hp. unfold submit.
  rewrite Hf, Hcn, Hem, Hot, Hmsg, Eu', Hu, (axios_post_2xx _ _ H1), Et', Hr,
    (axios_post_2xx _ _ H2).
  rewrite (get_defined created "id") by assumption.
  split; reflexivity.
Qed.

(** X20. No rollback.  When the upload has succeeded and the ticket request
    fails, the response is 500 and the run ends there: the upstream calls
    are the upload and the ticket request and nothing after them, so the
    uploaded attachment is left where it is. *)
Theorem ticket_failure_after_upload (env : Env) (world : World) (req : Request)
    (form : DecodedForm) (f : FileData) (uploaded : jsval) (t : TicketCall) (c1 : Z) :
  method req = lit "POST" ->
  parseMultipartForm req = Resolved form ->
  file form = Some f ->
  upload_reply world (upload_call env f) = HttpReply c1 uploaded ->
  (200 <= c1 < 300)%Z ->
  ticket_call env (fields form !! lit "companyName") (fields form !! lit "email")
    (fields form !! lit "organizationType") (fields form !! lit "message")
    (name f) uploaded = Ok t ->
  failed (ticket_reply world t) ->
  let out := handler env world req in
  (exists details,
      response out =
        Some {| status := 500; headers := cors_headers;
                body := BodyJson (JObj [prop "error" (jstr "Form submission failed");
                                        prop "details" details]) |})
  /\ List.filter is_upstream (trace out) = [UploadPost (upload_call env f); TicketPost t].
Proof.
  intros Hm Hp Hf Hu H1 Ht Hfail out. subst out.
  rewrite (handler_post _ _ _ Hm), Hp. unfold submit.
  rewrite Hf, Hu, (axios_post_2xx _ _ H1), Ht.
  destruct (axios_post_failed _ Hfail) as [e ->].
  split; [eexists; reflexivity|reflexivity].
Qed.

(** X21. Whatever the request and whatever the helpdesk answers, the
    upstream calls of a run are none, or the upload alone, or the upload
    followed by the ticket request: never a ticket without its upload,
    never a call twice, never a call after the ticket request. *)
Theorem upstream_calls_shape (env : Env) (world : World) (req : Request) :
  let calls := List.filter is_upstream (trace (handler env world req)) in
  calls = []
  \/ (exists u, calls = [UploadPost u])
  \/ (exists u t, calls = [UploadPost u; TicketPost t]).
Proof.
  unfold handler.
  destruct (bool_decide (method req = lit "POST")); cbn [negb]; [|left; reflexivity].
  destruct (bool_decide (method req = lit "OPTIONS")); [left; reflexivity|].
  destruct (parseMultipartForm req) as [form|e|]; [|left; reflexivity|left; reflexivity].
  unfold submit. destruct (file form) as [f|]; [|left; reflexivity].
  destruct (axios_post _) as [uploaded|e]; [|right; left; eexists; reflexivity].
  destruct (ticket_call _ _ _ _ _ _ _) as [t|e]; [|right; left; eexists; reflexivity].
  destruct (axios_post _) as [created|e]; [|right; right; eexists; eexists; reflexivity].
  destruct (get created "id"); right; right; eexists; eexists; reflexivity.
Qed.

(** X22. Every response of the handler has status 200, 400, 405 or 500;
    the response to a POST request is never 405 and always carries the
    three CORS headers: any origin, the methods POST and OPTIONS, the
    header Content-Type. *)
Theorem response_shape (env : Env) (world : World) (req : Request) (r : Response) :
  response (handler env world req) = Some r ->
  (status r = 200 \/ status r = 400 \/ status r = 405 \/ status r = 500)%Z
  /\ (method req = lit "POST" ->
      status r <> 405%Z
      /\ headers r = [ (lit "Access-Control-Allow-Origin", lit "*");
                       (lit "Access-Control-Allow-Methods", lit "POST, OPTIONS");
                       (lit "Access-Control-Allow-Headers", lit "Content-Type") ]).
Proof.
  unfold handler.
  destruct (bool_decide (method req = lit "POST")) eqn:Hm; cbn [negb].
  2:{ intros [= <-]. split; [cbn; tauto|].
      intros Hp. apply bool_decide_eq_false in Hm. contradiction. }
  destruct (bool_decide (method req = lit "OPTIONS")) eqn:Ho.
  { apply bool_decide_eq_true in Hm, Ho. rewrite Hm in Ho. discriminate. }
  assert (Hgoal : forall x : Response,
             (status x = 200 \/ status x = 400 \/ status x = 500)%Z ->
             headers x = [ (lit "Access-Control-Allow-Origin", lit "*");
                           (lit "Access-Control-Allow-Methods", lit "POST, OPTIONS");
                           (lit "Access-Control-Allow-Headers", lit "Content-Type") ] ->
             Some x = Some r ->
             (status r = 200 \/ status r = 400 \/ status r = 405 \/ status r = 500)%Z
             /\ (method req = lit "POST" ->
                 status r <> 405%Z
                 /\ headers r = [ (lit "Access-Control-Allow-Origin", lit "*");
                                  (lit "Access-Control-Allow-Methods", lit "POST, OPTIONS");
                                  (lit "Access-Control-Allow-Headers", lit "Content-Type") ])).
  { intros x Hs Hh [= <-]. split; [tauto|]. intros _. split; [lia|exact Hh]. }
  destruct (parseMultipartForm req) as [form|e|];
    [|apply Hgoal; [cbn; tauto|reflexivity]|discriminate].
  unfold submit. destruct (file form) as [f|]; [|apply Hgoal; [cbn; tauto|reflexivity]].
  destruct (axios_post _) as [uploaded|e]; [|apply Hgoal; [cbn; tauto|reflexivity]].
  destruct (ticket_call _ _ _ _ _ _ _) as [t|e]; [|apply Hgoal; [cbn; tauto|reflexivity]].
  destruct (axios_post _) as [created|e]; [|apply Hgoal; [cbn; tauto|reflexivity]].
  destruct (get created "id"); apply Hgoal; first [reflexivity|cbn; tauto].
Qed.

(** X23. Success is reported only after both calls: a response with status
    200 means that the request was a POST whose body decoded with a file,
    and that the upload and the ticket request were both made. *)
Theorem success_needs_both_calls (env : Env) (world : World) (req : Request)
    (r : Response) :
  response (handler env world req) = Some r ->
  status r = 200%Z ->
  method req = lit "POST"
  /\ (exists form f, parseMultipartForm req = Resolved form /\ file form = Some f)
  /\ exists u t,
       List.filter is_upstream (trace (handler env world req))
       = [UploadPost u; TicketPost t].
Proof.
  unfold handler.
  destruct (bool_decide (method req = lit "POST")) eqn:Hm; cbn [negb];
    [|intros [= <-]; discriminate].
  apply bool_decide_eq_true in Hm.
  destruct (bool_decide (method req = lit "OPTIONS")) eqn:Ho.
  { apply bool_decide_eq_true in Ho. rewrite Hm in Ho. discriminate. }
  destruct (parseMultipartForm req) as [form|e|];
    [|intros [= <-]; discriminate|discriminate].
  unfold submit. destruct (file form) as [f|] eqn:Hf; [|intros [= <-]; discriminate].
  destruct (axios_post _) as [uploaded|e]; [|intros [= <-]; discriminate].
  destruct (ticket_call _ _ _ _ _ _ _) as [t|e]; [|intros [= <-]; discriminate].
  destruct (axios_post _) as [created|e]; [|intros [= <-]; discriminate].
  destruct (get created "id"); [|intros [= <-]; discriminate].
  intros _ _. split; [exact Hm|]. split; [eauto|]. eexists. eexists. reflexivity.
Qed.

(** X24. What the 500 of a failed upload reports.  Without response from
    the helpdesk, the details are the message of the failure.  With a
    response outside 2xx, the details are the [errors] of its body when
    that is truthy, and otherwise the text [Request failed with status
    code] followed by the status. *)
Theorem upload_error_details (env : Env) (world : World) (req : Request)
    (form : DecodedForm) (f : FileData) :
  method req = lit "POST" ->
  parseMultipartForm req = Resolved form ->
  file form = Some f ->
  failed (upload_reply world (upload_call env f)) ->
  response (handler env world req) =
    Some {| status := 500; headers := cors_headers;
            body := BodyJson (JObj [
              prop "error" (jstr "Form submission failed");
              prop "details"
                match upload_reply world (upload_call env f) with
                | NoReply msg => JStr msg
                | HttpReply code payload =>
                    or_else (get_opt payload "errors")
                      (JStr (lit "Request failed with status code " ++ decimal code))
                end]) |}.
Proof.
  intros Hm Hp Hf Hfail. rewrite (handler_post _ _ _ Hm), Hp. unfold submit. rewrite Hf.
  destruct (upload_reply world (upload_call env f)) as [msg|code payload]; cbn in *.
  - reflexivity.
  - destruct ((200 <=? code) && (code <? 300))%Z eqn:E.
    + exfalso. apply Hfail. apply andb_true_iff in E. lia.
    + reflexivity.
Qed.

(** X25. An upload answered 2xx with a body that is [null] or no body value
    at all makes the read of [url] throw: the response is 500 with the
    message of that [TypeError], the upload has been made and the ticket
    request is not. *)
Theorem nullish_upload_data_500 (env : Env) (world : World) (req : Request)
    (form : DecodedForm) (f : FileData) (uploaded : jsval) (c1 : Z) :
  method req = lit "POST" ->
  parseMultipartForm req = Resolved form ->
  file form = Some f ->
  upload_reply world (upload_call env f) = HttpReply c1 uploaded ->
  (200 <= c1 < 300)%Z ->
  uploaded = JUndefined \/ uploaded = JNull ->
  let out := handler env world req in
  response out =
    Some {| status := 500; headers := cors_headers;
            body := BodyJson (JObj [
              prop "error" (jstr "Form submission failed");
              prop "details"
                (JStr (lit "Cannot read properties of "
                       ++ match uploaded with JNull => lit "null" | _ => lit "undefined" end
                       ++ lit " (reading 'url')"))]) |}
  /\ List.filter is_upstream (trace out) = [UploadPost (upload_call env f)].
Proof.
  intros Hm Hp Hf Hu H1 Hn out. subst out.
  rewrite (handler_post _ _ _ Hm), Hp. unfold submit.
  rewrite Hf, Hu, (axios_post_2xx _ _ H1). unfold ticket_call.
  destruct Hn as [-> | ->]; split; reflexivity.
Qed.

(** X26. A ticket request answered 2xx with a body that is [null] or no
    body value at all makes the read of [id] throw after the ticket was
    created: both calls have been made and the response is 500. *)
Theorem nullish_ticket_data_500 (env : Env) (world : World) (req : Request)
    (form : DecodedForm) (f : FileData) (uploaded created : jsval)
    (t : TicketCall) (c1 c2 : Z) :
  method req = lit "POST" ->
  parseMultipartForm req = Resolved form ->
  file form = Some f ->
  upload_reply world (upload_call env f) = HttpReply c1 uploaded ->
  (200 <= c1 < 300)%Z ->
  ticket_call env (fields form !! lit "companyName") (fields form !! lit "email")
    (fields form !! lit "organizationType") (fields form !! lit "message")
    (name f) uploaded = Ok t ->
  ticket_reply world t = HttpReply c2 created ->
  (200 <= c2 < 300)%Z ->
  created = JUndefined \/ created = JNull ->
  let out := handler env world req in
  response out =
    Some {| status := 500; headers := cors_headers;
            body := BodyJson (JObj [
              prop "error" (jstr "Form submission failed");
              prop "details"
                (JStr (lit "Cannot read properties of "
                       ++ match created with JNull => lit "null" | _ => lit "undefined" end
                       ++ lit " (reading 'id')"))]) |}
  /\ List.filter is_upstream (trace out) = [UploadPost (upload_call env f); TicketPost t].
Proof.
  intros Hm Hp Hf Hu H1 Ht Hr H2 Hn out. subst out.
  rewrite (handler_post _ _ _ Hm), Hp. unfold submit.
  rewrite Hf, Hu, (axios_post_2xx _ _ H1), Ht, Hr, (axios_post_2xx _ _ H2).
  destruct Hn as [-> | ->]; split; reflexivity.
Qed.

(** X27. The authorization header is safe whatever the credentials are,
    set or not: it starts with the word [Basic] and a space, and every code
    unit of it is ASCII and neither CR nor LF, so that no credential can
    break out of the header. *)
Theorem getBasicAuth_header_safe (username password : option jsstring) :
  startsWith (lit "Basic ") (getBasicAuth username password) = true
  /\ Forall header_safe (getBasicAuth username password).
Proof.
  unfold getBasicAuth, Buffer.toBase64. split; [apply startsWith_app|].
  apply Forall_app. split; [|apply base64_units_safe].
  apply List.Forall_forall. intros c Hc. vm_compute in Hc.
  repeat (destruct Hc as [<-|Hc]; [unfold header_safe, CR, LF; lia|]). destruct Hc.
Qed.

(** ** The further properties at the sample requests *)


Lemma rejection_causes_witness :
  (exists chunks rest, stream ex_req_aborted = List.map EvData chunks ++ EvError ex_error :: rest)
  \/ ex_error = TypeError_read "undefined" "split".
Proof. apply (rejection_causes ex_req_aborted ex_error). reflexivity. Defined.

Lemma pending_without_end_witness :
  parseMultipartForm ex_req_pending = Pending
  /\ handler ex_env ex_world ex_req_pending = {| trace := []; response := None |}.
Proof.
  destruct (pending_without_end ex_env ex_world ex_req_pending
              [take 20 ex_bytes; drop 20 ex_bytes] eq_refl) as [Hp Hh].
  split; [exact Hp|apply Hh; reflexivity].
Defined.

Lemma chunking_is_irrelevant_witness :
  parseMultipartForm ex_req = parseMultipartForm ex_req_chunked.
Proof.
  apply (chunking_is_irrelevant ex_req ex_req_chunked eq_refl eq_refl eq_refl).
  vm_compute. reflexivity.
Defined.

Lemma no_content_type_header_rejects_witness :
  parseMultipartForm ex_req_no_header = Rejected (TypeError_read "undefined" "split")
  /\ exists r, response (handler ex_env ex_world ex_req_no_header) = Some r
               /\ status r = 500%Z.
Proof.
  destruct (no_content_type_header_rejects ex_env ex_world ex_req_no_header
              eq_refl eq_refl) as [Hp Hh].
  split; [exact Hp|]. eexists. split; [apply Hh; reflexivity|reflexivity].
Defined.

Lemma stream_error_500_witness :
  parseMultipartForm ex_req_aborted = Rejected ex_error
  /\ response (handler ex_env ex_world ex_req_aborted) =
       Some {| status := 500; headers := cors_headers;
               body := BodyJson (JObj [prop "error" (jstr "Form submission failed");
                                       prop "details" (jstr "aborted")]) |}.
Proof.
  destruct (stream_error_500 ex_env ex_world ex_req_aborted [take 20 ex_bytes]
              ex_error [EvEnd] eq_refl) as [Hp Hh].
  split; [exact Hp|]. destruct (Hh eq_refl) as (Hr & _ & _). rewrite Hr. reflexivity.
Defined.

Lemma missing_boundary_delimiter_witness :
  boundary_of (lit "multipart/form-data; charset=utf-8") = None
  /\ delimiter (lit "multipart/form-data; charset=utf-8") = lit "--undefined".
Proof.
  apply (missing_boundary_delimiter (lit "multipart/form-data; charset=utf-8")).
  vm_compute. reflexivity.
Defined.

Lemma boundary_is_rest_of_header_witness :
  delimiter (multipart_header ([dquote] ++ lit "XYZ" ++ [dquote] ++ lit "; charset=utf-8"))
  = lit "--" ++ [dquote] ++ lit "XYZ" ++ [dquote] ++ lit "; charset=utf-8".
Proof.
  apply (boundary_is_rest_of_header
           ([dquote] ++ lit "XYZ" ++ [dquote] ++ lit "; charset=utf-8")).
  vm_compute. reflexivity.
Defined.

Lemma no_disposition_token_empty_form_witness :
  parseMultipartForm ex_req_headerless_part = Resolved {| fields := ∅; file := None |}.
Proof.
  apply (no_disposition_token_empty_form ex_env ex_world ex_req_headerless_part
           (multipart_header ex_B) eq_refl eq_refl).
  vm_compute. reflexivity.
Defined.

Lemma last_field_value_wins_witness :
  exists form,
    parseMultipartForm ex_req_repeated = Resolved form
    /\ fields form !! lit "email" = Some (lit "x@y.z").
Proof.
  assert (Hp : exists form, parseMultipartForm ex_req_repeated = Resolved form)
    by (eexists; vm_compute; reflexivity).
  destruct Hp as [form Hp]. exists form. split; [exact Hp|].
  apply (last_field_value_wins ex_req_repeated form (multipart_header ex_B)
           [[]; part_text (Field (lit "email") (lit "a@b.c"))]
           [part_text ex_file; lit "--" ++ CRLF]
           (part_text (Field (lit "email") (lit "x@y.z")))
           (lit "email") (lit "x@y.z") Hp eq_refl).
  - vm_compute. reflexivity.
  - repeat split; vm_compute; reflexivity.
  - vm_compute. reflexivity.
  - discriminate.
  - vm_compute. discriminate.
  - intros p [<-|[<-|[]]] (Ht & Hf & _).
    + vm_compute in Hf. discriminate Hf.
    + vm_compute in Ht. discriminate Ht.
Defined.

Lemma proto_never_a_field_witness :
  exists form,
    parseMultipartForm ex_req_proto = Resolved form
    /\ fields form !! lit "__proto__" = None.
Proof.
  assert (Hp : exists form, parseMultipartForm ex_req_proto = Resolved form)
    by (eexists; vm_compute; reflexivity).
  destruct Hp as [form Hp]. exists form. split; [exact Hp|].
  apply (proto_never_a_field ex_req_proto form Hp).
Defined.

Lemma decoded_fields_shape_witness :
  lit "email" <> [] /\ ~ In dquote (lit "email")
  /\ lit "a@b.c" <> [] /\ includes CRLF (lit "a@b.c") = false.
Proof.
  apply (decoded_fields_shape ex_req ex_form (lit "email") (lit "a@b.c")).
  - vm_compute. reflexivity.
  - vm_compute. reflexivity.
Defined.

Lemma decoded_file_shape_witness :
  name ex_decoded_file <> [] /\ ~ In dquote (name ex_decoded_file)
  /\ contentType ex_decoded_file <> [] /\ ~ In CR (contentType ex_decoded_file)
  /\ ~ In LF (contentType ex_decoded_file).
Proof.
  apply (decoded_file_shape ex_req ex_form ex_decoded_file).
  - vm_compute. reflexivity.
  - reflexivity.
Defined.

Lemma default_content_type_witness :
  exists st' fd,
    parse_part {| fields := ∅; file := None |} ex_part_no_ctype = Ok st'
    /\ file st' = Some fd /\ contentType fd = lit "application/octet-stream".
Proof.
  assert (Hp : exists st', parse_part {| fields := ∅; file := None |} ex_part_no_ctype = Ok st')
    by (eexists; vm_compute; reflexivity).
  destruct Hp as [st' Hp]. exists st'.
  assert (Hf : is_file_part ex_part_no_ctype = true) by (vm_compute; reflexivity).
  assert (Hc : includes (lit "Content-Type: ") ex_part_no_ctype = false)
    by (vm_compute; reflexivity).
  destruct (default_content_type {| fields := ∅; file := None |} st' ex_part_no_ctype
              Hf Hc Hp) as (fd & Hfd & Hct).
  exists fd. split; [exact Hp|]. split; assumption.
Defined.

Lemma payload_cut_at_blank_line_witness :
  parse_part {| fields := ∅; file := None |}
    (part_text (File (lit "file") (lit "notes.txt") (lit "text/plain")
                  (lit "first paragraph" ++ CRLFCRLF ++ lit "second paragraph")))
  = Ok {| fields := ∅;
          file := Some {| name := lit "notes.txt";
                          data := Buffer.from_binary (lit "first paragraph");
                          contentType := lit "text/plain" |} |}.
Proof.
  apply (payload_cut_at_blank_line {| fields := ∅; file := None |}
           (lit "file") (lit "notes.txt") (lit "text/plain")
           (lit "first paragraph") (lit "second paragraph")).
  - unfold file_ok. split_and!; sample_check.
  - sample_check.
  - sample_check.
  - sample_check.
Defined.

Lemma file_data_has_trailing_line_break_witness :
  parse_part {| fields := ∅; file := None |}
    (part_text (File (lit "file") (lit "d.pdf") (lit "application/pdf")
                  (List.map Byte.to_N [x68; x65; x6c; x6c; x6f])))
  = Ok {| fields := ∅;
          file := Some {| name := lit "d.pdf";
                          data := [x68; x65; x6c; x6c; x6f] ++ [x0d; x0a];
                          contentType := lit "application/pdf" |} |}.
Proof.
  apply (file_data_has_trailing_line_break {| fields := ∅; file := None |}
           (lit "file") (lit "d.pdf") (lit "application/pdf") [x68; x65; x6c; x6c; x6f]).
  - unfold file_ok. split_and!; sample_check.
  - sample_check.
  - sample_check.
  - vm_compute. reflexivity.
  - vm_compute. reflexivity.
Defined.

Lemma field_value_cut_at_line_break_witness :
  parse_part {| fields := ∅; file := None |}
    (part_text (Field (lit "message") (lit "line one" ++ CRLF ++ lit "line two")))
  = Ok {| fields := <[lit "message" := lit "line one"]> ∅; file := None |}.
Proof.
  apply (field_value_cut_at_line_break {| fields := ∅; file := None |}
           (lit "message") (lit "line one") (lit "line two")); sample_check.
Defined.

Lemma well_formed_body_decodes_witness :
  exists form,
    parseMultipartForm ex_req_repeated = Resolved form
    /\ fields form !! lit "email" = Some (lit "x@y.z")
    /\ fields form !! lit "companyName" = None
    /\ file form = Some {| name := lit "d.pdf";
                           data := Buffer.from_utf8 (lit "hello" ++ CRLF);
                           contentType := lit "application/pdf" |}.
Proof.
  destruct (well_formed_body_decodes ex_req_repeated ex_B
              [Field (lit "email") (lit "a@b.c"); Field (lit "email") (lit "x@y.z"); ex_file])
    as (form & Hp & Habsent & Hlast & _ & Hfile).
  - reflexivity.
  - reflexivity.
  - vm_compute. reflexivity.
  - unfold boundary_ok. split_and!; sample_check.
  - repeat (apply List.Forall_cons; [sample_part_ok|]). apply List.Forall_nil.
  - exists form. split; [exact Hp|]. split; [|split].
    + apply (Hlast [Field (lit "email") (lit "a@b.c")] (lit "email") (lit "x@y.z") [ex_file]);
        [reflexivity|]. intros [].
    + apply Habsent. sample_check.
    + destruct (Hfile [Field (lit "email") (lit "a@b.c"); Field (lit "email") (lit "x@y.z")]
                  (lit "file") (lit "d.pdf") (lit "application/pdf") (lit "hello") []
                  eq_refl eq_refl) as [_ Hdata].
      rewrite Hdata.
      * vm_compute. reflexivity.
      * sample_check.
      * sample_check.
      * vm_compute. reflexivity.
      * vm_compute. reflexivity.
Defined.

Lemma submission_succeeds_witness :
  response (handler ex_env ex_world ex_req) =
    Some {| status := 200;
            headers := [ (lit "Access-Control-Allow-Origin", lit "*");
                         (lit "Access-Control-Allow-Methods", lit "POST, OPTIONS");
                         (lit "Access-Control-Allow-Headers", lit "Content-Type") ];
            body := BodyJson (JObj [(lit "success", JBool true);
                                    (lit "ticketId", JNum 42);
                                    (lit "message", JStr (lit "Form submitted successfully"));
                                    (lit "attachmentUrl",
                                     JStr (lit "https://cdn.test/d.pdf"))]) |}
  /\ exists u t,
       List.filter is_upstream (trace (handler ex_env ex_world ex_req))
       = [UploadPost u; TicketPost t]
       /\ upload_url u = lit "https://acme.gorgias.com/api/upload?type=attachment"
       /\ form_filename (upload_form u) = lit "d.pdf"
       /\ ticket_url t = lit "https://acme.gorgias.com/api/tickets"
       /\ get_opt (ticket_body t) "subject" = JStr (lit "B2B Form Submission - Acme")
       /\ get_opt (ticket_body t) "customer"
          = JObj [(lit "email", JStr (lit "a@b.c")); (lit "name", JStr (lit "Acme"))]
       /\ get_opt (ticket_body t) "tags"
          = JArr [JStr (lit "b2b-form"); JStr (lit "school")].
Proof.
  assert (Hp : parseMultipartForm ex_req = Resolved ex_form) by (vm_compute; reflexivity).
  assert (Hcn : fields ex_form !! lit "companyName" = Some (lit "Acme"))
    by (vm_compute; reflexivity).
  assert (Hem : fields ex_form !! lit "email" = Some (lit "a@b.c"))
    by (vm_compute; reflexivity).
  assert (Hot : fields ex_form !! lit "organizationType" = Some (lit "school"))
    by (vm_compute; reflexivity).
  assert (Hmsg : fields ex_form !! lit "message" = None) by (vm_compute; reflexivity).
  destruct (submission_succeeds ex_env ex_world ex_req ex_form ex_decoded_file
              _ _ _ _ _ _ ex_uploaded (JObj [(lit "id", JNum 42)]) 200 201
              eq_refl Hp eq_refl Hcn Hem Hot Hmsg eq_refl eq_refl eq_refl) as (Hr & Hc);
    [lia|discriminate|discriminate|reflexivity|lia|discriminate|discriminate|].
  split; [rewrite Hr; reflexivity|].
  eexists _, _. split; [exact Hc|]. vm_compute. repeat split.
Defined.

Lemma ticket_failure_after_upload_witness :
  (exists details,
      response (handler ex_env ex_world_ticket_down ex_req) =
        Some {| status := 500; headers := cors_headers;
                body := BodyJson (JObj [prop "error" (jstr "Form submission failed");
                                        prop "details" details]) |})
  /\ exists t, List.filter is_upstream (trace (handler ex_env ex_world_ticket_down ex_req))
               = [UploadPost (upload_call ex_env ex_decoded_file); TicketPost t].
Proof.
  assert (Hp : parseMultipartForm ex_req = Resolved ex_form) by (vm_compute; reflexivity).
  assert (Ht : exists t,
             ticket_call ex_env (fields ex_form !! lit "companyName")
               (fields ex_form !! lit "email") (fields ex_form !! lit "organizationType")
               (fields ex_form !! lit "message") (name ex_decoded_file) ex_uploaded = Ok t)
    by (eexists; vm_compute; reflexivity).
  destruct Ht as [t Ht].
  destruct (ticket_failure_after_upload ex_env ex_world_ticket_down ex_req ex_form
              ex_decoded_file ex_uploaded t 200 eq_refl Hp eq_refl eq_refl) as (Hr & Hc);
    [lia|exact Ht|exact I|].
  split; [exact Hr|]. exists t. exact Hc.
Defined.

Lemma response_shape_witness :
  exists r,
    response (handler ex_env ex_world_down ex_req) = Some r
    /\ (status r = 200 \/ status r = 400 \/ status r = 405 \/ status r = 500)%Z
    /\ status r <> 405%Z
    /\ headers r = [ (lit "Access-Control-Allow-Origin", lit "*");
                     (lit "Access-Control-Allow-Methods", lit "POST, OPTIONS");
                     (lit "Access-Control-Allow-Headers", lit "Content-Type") ].
Proof.
  assert (Hr : exists r, response (handler ex_env ex_world_down ex_req) = Some r)
    by (eexists; vm_compute; reflexivity).
  destruct Hr as [r Hr]. exists r. split; [exact Hr|].
  destruct (response_shape ex_env ex_world_down ex_req r Hr) as [Hs Hh].
  split; [exact Hs|]. apply Hh. reflexivity.
Defined.

Lemma success_needs_both_calls_witness :
  method ex_req = lit "POST"
  /\ (exists form f, parseMultipartForm ex_req = Resolved form /\ file form = Some f)
  /\ exists u t,
       List.filter is_upstream (trace (handler ex_env ex_world ex_req))
       = [UploadPost u; TicketPost t].
Proof.
  eapply (success_needs_both_calls ex_env ex_world ex_req).
  - vm_compute. reflexivity.
  - reflexivity.
Defined.

Lemma upload_error_details_witness :
  response (handler ex_env ex_world_down ex_req) =
    Some {| status := 500; headers := cors_headers;
            body := BodyJson (JObj [prop "error" (jstr "Form submission failed");
                                    prop "details" (jstr "unavailable")]) |}.
Proof.
  assert (Hp : parseMultipartForm ex_req = Resolved ex_form) by (vm_compute; reflexivity).
  rewrite (upload_error_details ex_env ex_world_down ex_req ex_form ex_decoded_file
             eq_refl Hp eq_refl); [reflexivity|].
  cbn. lia.
Defined.

Lemma nullish_upload_data_500_witness :
  response (handler ex_env ex_world_null_upload ex_req) =
    Some {| status := 500; headers := cors_headers;
            body := BodyJson (JObj [
              prop "error" (jstr "Form submission failed");
              prop "details" (jstr "Cannot read properties of null (reading 'url')")]) |}
  /\ List.filter is_upstream (trace (handler ex_env ex_world_null_upload ex_req))
     = [UploadPost (upload_call ex_env ex_decoded_file)].
Proof.
  assert (Hp : parseMultipartForm ex_req = Resolved ex_form) by (vm_compute; reflexivity).
  destruct (nullish_upload_data_500 ex_env ex_world_null_upload ex_req ex_form
              ex_decoded_file JNull 200 eq_refl Hp eq_refl eq_refl) as (Hr & Hc);
    [lia|right; reflexivity|].
  split; [rewrite Hr; reflexivity|exact Hc].
Defined.

Lemma nullish_ticket_data_500_witness :
  response (handler ex_env ex_world_null_ticket ex_req) =
    Some {| status := 500; headers := cors_headers;
            body := BodyJson (JObj [
              prop "error" (jstr "Form submission failed");
              prop "details" (jstr "Cannot read properties of null (reading 'id')")]) |}
  /\ exists t, List.filter is_upstream (trace (handler ex_env ex_world_null_ticket ex_req))
               = [UploadPost (upload_call ex_env ex_decoded_file); TicketPost t].
Proof.
  assert (Hp : parseMultipartForm ex_req = Resolved ex_form) by (vm_compute; reflexivity).
  assert (Ht : exists t,
             ticket_call ex_env (fields ex_form !! lit "companyName")
               (fields ex_form !! lit "email") (fields ex_form !! lit "organizationType")
               (fields ex_form !! lit "message") (name ex_decoded_file) ex_uploaded = Ok t)
    by (eexists; vm_compute; reflexivity).
  destruct Ht as [t Ht].
  destruct (nullish_ticket_data_500 ex_env ex_world_null_ticket ex_req ex_form
              ex_decoded_file ex_uploaded JNull t 200 201
              eq_refl Hp eq_refl eq_refl) as (Hr & Hc);
    [lia|exact Ht|reflexivity|lia|right; reflexivity|].
  split; [rewrite Hr; reflexivity|]. exists t. exact Hc.
Defined.

